(** * Grit: a retry / backoff engine

    A shallow embedding of the TypeScript sources (grit.ts, builder.ts,
    utils.ts, exceptions.ts, types.ts) and the properties of the retry loop.

    Modelling conventions.
    - JavaScript numbers are idealised as rationals ([Q]); NaN and the
      infinities are not represented, so the checks against
      [Number.POSITIVE_INFINITY] never fire.  A number is truthy when it is
      not zero.
    - A promise is modelled by the outcome it settles with ([Resolved] or
      [Rejected]).  The engine is single threaded and strictly sequential,
      so an [async] method is a state transformer over a [World] that holds
      what the run can observe or change: the state captured by the
      operation, a clock, the heap of delay arrays, the [Math.random]
      stream and a log of the externally visible events.
    - The operation is assumed to settle; an invocation reports the outcome
      and the time it takes.  A synchronous throw and a rejected promise are
      both [Rejected], as [await] makes them indistinguishable to the
      engine.
    - A delay array is a heap object: the builder and every engine built
      from it hold the same reference. *)

From stdpp Require Import gmap strings list.
From Stdlib Require Import QArith Qpower Lqa.

Close Scope Q_scope.

(** ** Numbers *)

Definition truthy (q : Q) : bool := negb (Qeq_bool q 0).

(** [a < b] and [a <= b] on numbers. *)
Definition Qltb (a b : Q) : bool := negb (Qle_bool b a).
Definition Qleb (a b : Q) : bool := Qle_bool a b.

(** [Math.pow(x, n)] at an integer exponent. *)
Definition Math_pow (x : Q) (n : Z) : Q := Qpower x n.

(** The delay [setTimeout] really waits: negative values fire at once. *)
Definition clamp (ms : Q) : Q := if Qltb ms 0 then 0%Q else ms.

(** ** Values and errors (exceptions.ts) *)

(** The identity of a constructor function. *)
Definition ClassId := nat.

Definition GritError : ClassId := 0.
Definition MaxRetriesError : ClassId := 1.
Definition TimeoutError : ClassId := 2.
Definition DOMException : ClassId := 3.

Inductive Message :=
| Text (s : string)
| TimedOutAfter (ms : Q).   (* "Promise timed out after " + ms + " milliseconds" *)

(** What an operation can return or throw.  [VObject ctor msg] is a non-null
    object; [ctor] is [None] when ['constructor' in o] is false. *)
Inductive Value :=
| VUndefined
| VNull
| VPrimitive (s : string)
| VObject (ctor : option ClassId) (msg : Message).

Definition new_GritError (s : string) : Value := VObject (Some GritError) (Text s).
Definition new_TimeoutError (m : Message) : Value := VObject (Some TimeoutError) m.
Definition new_DOMException (s : string) : Value := VObject (Some DOMException) (Text s).

(** [error && typeof error === 'object' && 'constructor' in error], and then
    [error.constructor]. *)
Definition constructorOf (error : Value) : option ClassId :=
  match error with
  | VObject ctor _ => ctor
  | _ => None
  end.

(** [list.includes(c)] on an array of classes. *)
Definition includes (l : list ClassId) (c : ClassId) : bool := existsb (Nat.eqb c) l.

Definition nonEmpty {A} (l : list A) : bool :=
  match l with [] => false | _ => true end.

(** How a call or a promise ends. *)
Inductive Outcome (A : Type) :=
| Resolved (a : A)
| Rejected (e : Value).
Arguments Resolved {A} a.
Arguments Rejected {A} e.

(** ** Configuration (types.ts) *)

Record AbortSignal := {
  abortedAt : option Q;     (* the time at which the controller aborts, if ever *)
  reason : Value
}.

Record TimeoutObject := {
  tc_timeout : Q;
  tc_message : option string;
  tc_signal : option AbortSignal
}.

Inductive TimeoutConfig :=
| TimeoutNumber (ms : Q)
| TimeoutObj (o : TimeoutObject).

Inductive DelayConfig :=
| DelayNumber (ms : Q)
| DelayArray (ref : nat)
| DelayFactor (delay : Q) (factor : option Q)
| DelayRandom (minDelay maxDelay : Q) (factor : option Q).

(** [if (config)]: only the number 0 is falsy. *)
Definition delayTruthy (d : option DelayConfig) : bool :=
  match d with
  | None => false
  | Some (DelayNumber ms) => truthy ms
  | Some _ => true
  end.

Definition timeoutTruthy (t : option TimeoutConfig) : bool :=
  match t with
  | None => false
  | Some (TimeoutNumber ms) => truthy ms
  | Some _ => true
  end.

(** [factor || 1] *)
Definition factorOr1 (factor : option Q) : Q :=
  match factor with
  | Some f => if truthy f then f else 1%Q
  | None => 1%Q
  end.

(** An array that is not allocated reads as empty. *)
Definition readArray (h : gmap nat (list Q)) (ref : nat) : list Q :=
  default [] (h !! ref).

Inductive Event :=
| EvInvoke (attempt : nat)                 (* fn(attempt) *)
| EvSleep (ms : Q)                         (* setTimeout(resolve, ms) of #backoff *)
| EvDebug (ms : Q)                         (* console.debug("Delaying for", ms, "ms") *)
| EvFallback (error : Value) (attempt : nat).

Definition isInvoke (e : Event) : bool :=
  match e with EvInvoke _ => true | _ => false end.
Definition isFallback (e : Event) : bool :=
  match e with EvFallback _ _ => true | _ => false end.

Definition invocations (l : list Event) : nat := length (List.filter isInvoke l).
Definition fallbackCalls (l : list Event) : nat :=
  length (List.filter isFallback l).

(** The waits of a run, oldest first. *)
Fixpoint sleeps (l : list Event) : list Q :=
  match l with
  | [] => []
  | EvSleep ms :: l' => ms :: sleeps l'
  | _ :: l' => sleeps l'
  end.

(** The attempt numbers the operation was invoked with, oldest first. *)
Fixpoint invoked (l : list Event) : list nat :=
  match l with
  | [] => []
  | EvInvoke a :: l' => a :: invoked l'
  | _ :: l' => invoked l'
  end.

(** A log without its diagnostic lines. *)
Fixpoint withoutDebug (l : list Event) : list Event :=
  match l with
  | [] => []
  | EvDebug _ :: l' => withoutDebug l'
  | e :: l' => e :: withoutDebug l'
  end.

Section Types.

(** The state captured by the operation and the fallback (closure variables,
    mocks, remote services). *)
Context {State : Type}.

Record Invocation := {
  completion : Outcome Value;
  took : Q                      (* time until the returned promise settles *)
}.

Definition FunctionToExecute := nat → State → Invocation * State.
Definition FallbackFunction := Value → nat → State → Outcome Value * State.

Record GritProps := {
  retryCount : option Z;
  onlyErrors : list ClassId;
  skipErrors : list ClassId;
  delay : option DelayConfig;
  timeout : option TimeoutConfig;
  logging : bool;
  fallback : option FallbackFunction
}.

Record World := {
  opState : State;
  now : Q;
  heap : gmap nat (list Q);
  random : nat → Q;             (* the results of Math.random(), in order *)
  draws : nat;
  log : list Event
}.

Definition emit (e : Event) (w : World) : World :=
  {| opState := opState w; now := now w; heap := heap w;
     random := random w; draws := draws w; log := log w ++ [e] |}.

Definition elapse (ms : Q) (w : World) : World :=
  {| opState := opState w; now := (now w + ms)%Q; heap := heap w;
     random := random w; draws := draws w; log := log w |}.

Definition setClock (t : Q) (w : World) : World :=
  {| opState := opState w; now := t; heap := heap w;
     random := random w; draws := draws w; log := log w |}.

Definition setOpState (s : State) (w : World) : World :=
  {| opState := s; now := now w; heap := heap w;
     random := random w; draws := draws w; log := log w |}.

Definition setHeap (h : gmap nat (list Q)) (w : World) : World :=
  {| opState := opState w; now := now w; heap := h;
     random := random w; draws := draws w; log := log w |}.

Definition draw (w : World) : Q * World :=
  (random w (draws w),
   {| opState := opState w; now := now w; heap := heap w;
      random := random w; draws := S (draws w); log := log w |}).

End Types.

Arguments FunctionToExecute : clear implicits.
Arguments FallbackFunction : clear implicits.
Arguments GritProps : clear implicits.
Arguments World : clear implicits.

(** How a validation ends: it returns, or it throws. *)
Inductive Checked :=
| Valid
| Throws (e : Value).

(** ** The class [Grit] (grit.ts) and the helpers it calls (utils.ts) *)

Module Grit.
Section Engine.

Context {State : Type}.

(** An engine: the properties copied by the constructor and the two
    counters. *)
Record t := {
  props : GritProps State;
  attempts : nat;
  retries : nat
}.

(** *** utils.ts *)

(** The delay checks of [validateGritConfig], entered when the delay is
    truthy.  [Some r]: the function returns or throws here; [None]: it goes
    on to the timeout checks (only the random form does). *)
Definition validateDelay (h : gmap nat (list Q)) (retryCount : Z) (d : DelayConfig)
  : option Checked :=
  match d with
  | DelayNumber ms =>
      if Qltb ms 0 then Some (Throws (new_GritError "delay must be greater than 0"))
      else Some Valid
  | DelayArray ref =>
      let arr := readArray h ref in
      if negb (Z.of_nat (length arr) =? retryCount)%Z
      then Some (Throws (new_GritError "Delay array length must be equal to retry count"))
      else if existsb (fun x => Qleb x 0) arr
      then Some (Throws (new_GritError "delay must be greater than 0"))
      else Some Valid
  | DelayFactor dl _ =>
      if Qleb dl 0 then Some (Throws (new_GritError "delay must be greater than 0"))
      else Some Valid
  | DelayRandom minDelay maxDelay _ =>
      if negb (truthy minDelay) then Some (Throws (new_GritError "minDelay must be a number"))
      else if negb (truthy maxDelay) then Some (Throws (new_GritError "maxDelay must be a number"))
      else if Qleb maxDelay minDelay
      then Some (Throws (new_GritError "minDelay must be less than maxDelay"))
      else if Qleb minDelay 0 then Some (Throws (new_GritError "minDelay must be greater than 0"))
      else if Qleb maxDelay 0 then Some (Throws (new_GritError "maxDelay must be greater than 0"))
      else None
  end.

(** The timeout checks of [validateGritConfig], entered when the timeout is
    truthy. *)
Definition validateTimeout (t : TimeoutConfig) : Checked :=
  match t with
  | TimeoutNumber ms =>
      if Qleb ms 0 then Throws (new_GritError "timeout must be greater than 0") else Valid
  | TimeoutObj o =>
      if Qleb (tc_timeout o) 0 then Throws (new_GritError "timeout must be greater than 0")
      else Valid
  end.

(** [validateGritConfig]; [h] is the heap in which a delay array is read. *)
Definition validateGritConfig (h : gmap nat (list Q)) (grit : t) : Checked :=
  match retryCount (props grit) with
  | None => Throws (new_GritError "Missing retry config (Grit.retry(<count>))")
  | Some rc =>
      let checkTimeout :=
        if timeoutTruthy (timeout (props grit))
        then match timeout (props grit) with
             | Some t => validateTimeout t
             | None => Valid
             end
        else Valid in
      if delayTruthy (delay (props grit))
      then match delay (props grit) with
           | Some d =>
               match validateDelay h rc d with
               | Some r => r
               | None => checkTimeout
               end
           | None => checkTimeout
           end
      else checkTimeout
  end.

(** [getTimeoutConfig]: the timeout, the message of the timeout error (an
    empty custom message is falsy and gives the default) and the signal. *)
Definition getTimeoutConfig (config : option TimeoutConfig)
  : Outcome (Q * Message * option AbortSignal) :=
  match config with
  | Some (TimeoutNumber ms) => Resolved (ms, TimedOutAfter ms, None)
  | Some (TimeoutObj o) =>
      let message :=
        match tc_message o with
        | Some m => if String.eqb m "" then TimedOutAfter (tc_timeout o) else Text m
        | None => TimedOutAfter (tc_timeout o)
        end in
      Resolved (tc_timeout o, message, tc_signal o)
  | None => Rejected (new_GritError "Invalid timeout config")
  end.

(** *** grit.ts *)

(** [signal.reason ?? new DOMException(...)] *)
Definition getAbortedReason (signal : AbortSignal) : Value :=
  match reason signal with
  | VUndefined | VNull => new_DOMException "This operation was aborted."
  | r => r
  end.

(** [signal.aborted], read at time [t]. *)
Definition aborted (signal : AbortSignal) (t : Q) : bool :=
  match abortedAt signal with
  | Some ta => Qleb ta t
  | None => false
  end.

(** The constructor: it throws what [validateGritConfig] throws. *)
Definition new (p : GritProps State) (w : World State) : Outcome t :=
  let this := {| props := p; attempts := 1; retries := 0 |} in
  match validateGritConfig (heap w) this with
  | Valid => Resolved this
  | Throws e => Rejected e
  end.

(** The getter [#currentDelay]; [delay.shift()] updates the shared array. *)
Definition currentDelay (this : t) (w : World State) : Outcome Q * World State :=
  let '(dl, w1) :=
    match delay (props this) with
    | Some (DelayNumber ms) => (Some ms, w)
    | Some (DelayArray ref) =>
        match readArray (heap w) ref with
        | [] => (None, w)
        | x :: rest => (Some x, setHeap (<[ref := rest]> (heap w)) w)
        end
    | Some (DelayFactor initialDelay factor) =>
        (Some (initialDelay *
               Math_pow (factorOr1 factor) (Z.of_nat (attempts this) - 2))%Q, w)
    | Some (DelayRandom minDelay maxDelay factor) =>
        let '(r, w') := draw w in
        let randomDelay := (r * (maxDelay - minDelay) + minDelay)%Q in
        (Some (match factor with
               | Some f =>
                   if truthy f
                   then (randomDelay * Math_pow f (Z.of_nat (attempts this) - 2))%Q
                   else randomDelay
               | None => randomDelay
               end), w')
    | None => (None, w)
    end in
  match dl with
  | Some ms =>
      if truthy ms
      then (Resolved ms, if logging (props this) then emit (EvDebug ms) w1 else w1)
      else (Rejected (new_GritError "No delay. Should never happen."), w1)
  | None => (Rejected (new_GritError "No delay. Should never happen."), w1)
  end.

Definition backoff (this : t) (w : World State) : Outcome unit * World State :=
  match currentDelay this w with
  | (Resolved ms, w1) => (Resolved tt, elapse (clamp ms) (emit (EvSleep ms) w1))
  | (Rejected e, w1) => (Rejected e, w1)
  end.

(** [fn(this.attempts)], awaited. *)
Definition invoke (fn : FunctionToExecute State) (this : t) (w : World State)
  : Invocation * World State :=
  let '(inv, s') := fn (attempts this) (opState w) in
  (inv, emit (EvInvoke (attempts this)) (setOpState s' w)).

(** The race of [#withTimeout] once the operation has been invoked at time
    [start]: the earliest of the operation settling, the signal aborting and
    the timer elapsing wins.  The operation, invoked before the timer is
    armed, wins a tie; the signal wins a tie with the timer. *)
Definition race (inv : Invocation) (start ms : Q) (message : Message)
    (signal : option AbortSignal) (w : World State) : Outcome Value * World State :=
  let tOp := (start + took inv)%Q in
  let tTimer := (start + clamp ms)%Q in
  let timedOut := (Rejected (new_TimeoutError message), setClock tTimer w) in
  match signal with
  | Some sg =>
      match abortedAt sg with
      | Some ta =>
          if Qleb tOp tTimer && Qleb tOp ta then (completion inv, setClock tOp w)
          else if Qleb ta tTimer then (Rejected (getAbortedReason sg), setClock ta w)
          else timedOut
      | None => if Qleb tOp tTimer then (completion inv, setClock tOp w) else timedOut
      end
  | None => if Qleb tOp tTimer then (completion inv, setClock tOp w) else timedOut
  end.

(** [#withTimeout] *)
Definition withTimeout (fn : FunctionToExecute State) (this : t) (w : World State)
  : Outcome Value * World State :=
  match getTimeoutConfig (timeout (props this)) with
  | Rejected e => (Rejected e, w)
  | Resolved (ms, message, signal) =>
      let started :=
        let '(inv, w1) := invoke fn this w in
        race inv (now w) ms message signal w1 in
      match signal with
      | Some sg =>
          if aborted sg (now w) then (Rejected (getAbortedReason sg), w) else started
      | None => started
      end
  end.

(** The [try] block of [#execute]. *)
Definition tryOnce (fn : FunctionToExecute State) (this : t) (w : World State)
  : Outcome Value * World State :=
  if timeoutTruthy (timeout (props this)) then withTimeout fn this w
  else
    let '(inv, w1) := invoke fn this w in
    (completion inv, elapse (took inv) w1).

(** [this.retries >= this.retryCount!]; a comparison with [undefined] is
    false. *)
Definition exhausted (this : t) : bool :=
  match retryCount (props this) with
  | Some rc => (rc <=? Z.of_nat (retries this))%Z
  | None => false
  end.

(** The two filters of the [catch] block: [true] when the error is thrown
    again instead of retried. *)
Definition filteredOut (this : t) (error : Value) : bool :=
  match constructorOf error with
  | Some c =>
      if nonEmpty (skipErrors (props this)) && includes (skipErrors (props this)) c
      then true
      else nonEmpty (onlyErrors (props this)) && negb (includes (onlyErrors (props this)) c)
  | None => false
  end.

(** [this.attempts++; this.retries++] *)
Definition bump (this : t) : t :=
  {| props := props this;
     attempts := S (attempts this);
     retries := S (retries this) |}.

Definition callFallback (fb : FallbackFunction State) (error : Value) (this : t) (w : World State)
  : Outcome Value * World State :=
  let '(r, s') := fb error (attempts this) (opState w) in
  (r, emit (EvFallback error (attempts this)) (setOpState s' w)).

(** [#execute].  The recursion of the source is bounded by [fuel]; [None]
    means the fuel ran out. *)
Fixpoint execute_fuel (fuel : nat) (fn : FunctionToExecute State) (this : t) (w : World State)
  : option (Outcome Value * t * World State) :=
  match fuel with
  | O => None
  | S fuel' =>
      match tryOnce fn this w with
      | (Resolved v, w1) => Some (Resolved v, this, w1)
      | (Rejected error, w1) =>
          if exhausted this then
            match fallback (props this) with
            | Some fb =>
                let '(r, w2) := callFallback fb error this w1 in Some (r, this, w2)
            | None => Some (Rejected error, this, w1)
            end
          else if filteredOut this error then Some (Rejected error, this, w1)
          else
            let this' := bump this in
            if delayTruthy (delay (props this')) then
              match backoff this' w1 with
              | (Resolved _, w2) => execute_fuel fuel' fn this' w2
              | (Rejected e, w2) => Some (Rejected e, this', w2)
              end
            else execute_fuel fuel' fn this' w1
      end
  end.

(** One more than the retries that remain. *)
Definition budget (this : t) : nat :=
  match retryCount (props this) with
  | Some rc => S (Z.to_nat (rc - Z.of_nat (retries this)))
  | None => 1
  end.

Definition execute (fn : FunctionToExecute State) (this : t) (w : World State)
  : option (Outcome Value * t * World State) :=
  execute_fuel (budget this) fn this w.

Definition attempt (fn : FunctionToExecute State) (this : t) (w : World State)
  : option (Outcome Value * t * World State) :=
  execute fn this w.

Record SafeResult := {
  result : Value;
  error : Value
}.

Definition safeAttempt (fn : FunctionToExecute State) (this : t) (w : World State)
  : option (Outcome SafeResult * t * World State) :=
  match execute fn this w with
  | Some (Resolved r, this', w') =>
      Some (Resolved {| result := r; error := VNull |}, this', w')
  | Some (Rejected e, this', w') =>
      Some (Resolved {| error := e; result := VNull |}, this', w')
  | None => None
  end.

End Engine.

Arguments t : clear implicits.

End Grit.

(** ** builder.ts *)

Module GritBuilder.
Section Builder.

Context {State : Type}.

(** The builder's fields; [b_delay], [b_timeout] and [b_fallback] are
    [$delay], [$timeout] and [$fallback].  The setters of the source update
    the builder in place and return it; a chain of calls is modelled by the
    value it ends with. *)
Record t := {
  b_retryCount : option Z;
  _onlyErrors : list ClassId;
  _skipErrors : list ClassId;
  b_delay : option DelayConfig;
  b_timeout : option TimeoutConfig;
  b_fallback : option (FallbackFunction State);
  b_logging : bool
}.

Definition new (retryCount : Z) : t :=
  {| b_retryCount := Some retryCount; _onlyErrors := []; _skipErrors := [];
     b_delay := None; b_timeout := None; b_fallback := None; b_logging := false |}.

(** The properties [#build] hands to the constructor: the delay is passed
    as it is, so an array stays the same heap object. *)
Definition buildProps (b : t) : GritProps State :=
  {| retryCount := b_retryCount b;
     onlyErrors := _onlyErrors b;
     skipErrors := _skipErrors b;
     delay := b_delay b;
     timeout := b_timeout b;
     logging := b_logging b;
     fallback := b_fallback b |}.

Definition build (b : t) (w : World State) : Outcome (Grit.t State) :=
  Grit.new (buildProps b) w.

Definition onlyErrors (errors : list ClassId) (b : t) : t :=
  {| b_retryCount := b_retryCount b; _onlyErrors := errors;
     _skipErrors := _skipErrors b; b_delay := b_delay b; b_timeout := b_timeout b;
     b_fallback := b_fallback b; b_logging := b_logging b |}.

Definition skipErrors (errors : list ClassId) (b : t) : t :=
  {| b_retryCount := b_retryCount b; _onlyErrors := _onlyErrors b;
     _skipErrors := errors; b_delay := b_delay b; b_timeout := b_timeout b;
     b_fallback := b_fallback b; b_logging := b_logging b |}.

Definition withLogging (enabled : bool) (b : t) : t :=
  {| b_retryCount := b_retryCount b; _onlyErrors := _onlyErrors b;
     _skipErrors := _skipErrors b; b_delay := b_delay b; b_timeout := b_timeout b;
     b_fallback := b_fallback b; b_logging := enabled |}.

Definition withDelay (config : DelayConfig) (b : t) : t :=
  {| b_retryCount := b_retryCount b; _onlyErrors := _onlyErrors b;
     _skipErrors := _skipErrors b; b_delay := Some config; b_timeout := b_timeout b;
     b_fallback := b_fallback b; b_logging := b_logging b |}.

Definition withTimeout (config : TimeoutConfig) (b : t) : t :=
  {| b_retryCount := b_retryCount b; _onlyErrors := _onlyErrors b;
     _skipErrors := _skipErrors b; b_delay := b_delay b; b_timeout := Some config;
     b_fallback := b_fallback b; b_logging := b_logging b |}.

Definition withFallback (fallback : FallbackFunction State) (b : t) : t :=
  {| b_retryCount := b_retryCount b; _onlyErrors := _onlyErrors b;
     _skipErrors := _skipErrors b; b_delay := b_delay b; b_timeout := b_timeout b;
     b_fallback := Some fallback; b_logging := b_logging b |}.

(** What a call of a builder method gives: an exception thrown by the call
    itself, or the promise it returns. *)
Inductive Call (A : Type) :=
| Threw (e : Value)
| Returned (promise : Outcome A).

Definition attempt (fn : FunctionToExecute State) (b : t) (w : World State)
  : option (Call Value * World State) :=
  match build b w with
  | Rejected e => Some (Threw _ e, w)
  | Resolved grit =>
      match Grit.attempt fn grit w with
      | Some (r, _, w') => Some (Returned _ r, w')
      | None => None
      end
  end.

Definition safeAttempt (fn : FunctionToExecute State) (b : t) (w : World State)
  : option (Call Grit.SafeResult * World State) :=
  match build b w with
  | Rejected e => Some (Threw _ e, w)
  | Resolved grit =>
      match Grit.safeAttempt fn grit w with
      | Some (r, _, w') => Some (Returned _ r, w')
      | None => None
      end
  end.

End Builder.

Arguments t : clear implicits.
Arguments Threw {A} e.
Arguments Returned {A} promise.

End GritBuilder.

(** [Grit.retry] *)
Definition retry {State} (retryCount : Z) : GritBuilder.t State := GritBuilder.new retryCount.

(** * Vocabulary of the properties *)

Section Vocabulary.

Context {State : Type}.

Implicit Types (fn : FunctionToExecute State) (g : Grit.t State) (w : World State)
  (b : GritBuilder.t State).

(** The engine the constructor creates from [p], when it does not throw. *)
Definition fresh (p : GritProps State) : Grit.t State :=
  {| Grit.props := p; Grit.attempts := 1; Grit.retries := 0 |}.

(** The pair [safeAttempt] makes of a terminal outcome. *)
Definition wrap (o : Outcome Value) : Grit.SafeResult :=
  match o with
  | Resolved v => {| Grit.result := v; Grit.error := VNull |}
  | Rejected e => {| Grit.result := VNull; Grit.error := e |}
  end.


(** What construction establishes and every retry keeps: an explicit array
    holds one positive entry per retry that is left; the other forms keep
    the bounds checked by [validateGritConfig]. *)
Definition delayInv g w : Prop :=
  match delay (Grit.props g) with
  | Some (DelayArray ref) =>
      ∃ rc, retryCount (Grit.props g) = Some rc ∧
            (Z.of_nat (length (readArray (heap w) ref)) + Z.of_nat (Grit.retries g) = rc)%Z ∧
            Forall (λ x, (0 < x)%Q) (readArray (heap w) ref)
  | Some (DelayFactor d _) => (0 < d)%Q
  | Some (DelayRandom mn mx _) => (0 < mn)%Q ∧ (mn < mx)%Q
  | _ => True
  end.









(** The same properties with another [logging] flag. *)
Definition setLogging (enabled : bool) (p : GritProps State) : GritProps State :=
  {| retryCount := retryCount p; onlyErrors := onlyErrors p;
     skipErrors := skipErrors p; delay := delay p; timeout := timeout p;
     logging := enabled; fallback := fallback p |}.


(** An engine with other properties and the same counters. *)
Definition withProps (p : GritProps State) g : Grit.t State :=
  {| Grit.props := p; Grit.attempts := Grit.attempts g; Grit.retries := Grit.retries g |}.

(** Two worlds that differ at most in the diagnostic lines of their logs. *)
Definition sameButDebug w w' : Prop :=
  opState w = opState w' ∧ now w = now w' ∧ heap w = heap w' ∧
  random w = random w' ∧ draws w = draws w' ∧
  withoutDebug (log w) = withoutDebug (log w').

End Vocabulary.

(** * Sample inputs

    The operations keep the number of their invocations as their state, the
    way the test suite's mocks do. *)

Module Sample.

Definition NetworkError : ClassId := 10.
Definition ValidationError : ClassId := 11.

Definition failed : Value := VObject (Some NetworkError) (Text "Failed").
Definition success : Value := VPrimitive "success".

(** Fails on its first two invocations, then succeeds. *)
Definition flaky : FunctionToExecute nat :=
  λ _ calls,
    ({| completion := if (calls + 1 <? 3)%nat then Rejected failed else Resolved success;
        took := 5%Q |},
     calls + 1).

Definition alwaysFails : FunctionToExecute nat :=
  λ _ calls, ({| completion := Rejected failed; took := 5%Q |}, calls + 1).


Definition cached : FallbackFunction nat :=
  λ _ _ calls, (Resolved (VPrimitive "cached"), calls).

(** A world whose heap holds the array [[500, 1000, 2000]] at address 7. *)
Definition w0 : World nat :=
  {| opState := 0; now := 0%Q;
     heap := {[ 7 := [500%Q; 1000%Q; 2000%Q] ]};
     random := λ _, (1 # 2)%Q; draws := 0; log := [] |}.

Definition doubling : GritBuilder.t nat :=
  GritBuilder.withDelay (DelayFactor 100%Q (Some 2%Q)) (retry 3).


Definition withCache : GritBuilder.t nat :=
  GritBuilder.withFallback cached (GritBuilder.withDelay (DelayNumber 50%Q) (retry 2)).

Definition skipAndOnly : GritBuilder.t nat :=
  GritBuilder.skipErrors [NetworkError] (GritBuilder.onlyErrors [NetworkError] (retry 3)).

Definition onlyValidation : GritBuilder.t nat :=
  GritBuilder.onlyErrors [ValidationError] (retry 3).

Definition fromArray : GritBuilder.t nat :=
  GritBuilder.withDelay (DelayArray 7) (retry 3).

Definition abortedSignal : AbortSignal :=
  {| abortedAt := Some 0%Q; reason := VUndefined |}.

Definition signalled : TimeoutObject :=
  {| tc_timeout := 500%Q; tc_message := None; tc_signal := Some abortedSignal |}.

Definition withSignal : GritBuilder.t nat :=
  GritBuilder.withTimeout (TimeoutObj signalled) (retry 3).



Definition jittered : GritBuilder.t nat :=
  GritBuilder.withDelay (DelayRandom 100%Q 200%Q None) (retry 2).

Definition negative : GritBuilder.t nat := retry (-2).

Definition shortArray : GritBuilder.t nat :=
  GritBuilder.withDelay (DelayArray 7) (retry 2).

End Sample.

(** * Properties *)

(** ** Numbers *)

Lemma truthy_nonzero (q : Q) : ¬ (q == 0)%Q → truthy q = true.
Proof.
  intros Hq. unfold truthy. destruct (Qeq_bool q 0) eqn:E; [|reflexivity].
  apply Qeq_bool_eq in E. contradiction.
Qed.


Lemma truthy_positive (q : Q) : (0 < q)%Q → truthy q = true.
Proof.
  intros Hq. apply truthy_nonzero. intros E. rewrite E in Hq.
  exact (Qlt_irrefl 0 Hq).
Qed.

Lemma Qleb_false (a b : Q) : Qleb a b = false → (b < a)%Q.
Proof.
  unfold Qleb. intros H. apply Qnot_le_lt. intros Hle.
  apply Qle_bool_iff in Hle. congruence.
Qed.

Lemma Qleb_true (a b : Q) : Qleb a b = true → (a <= b)%Q.
Proof. apply Qle_bool_iff. Qed.

Lemma Qleb_le (a b : Q) : (a <= b)%Q → Qleb a b = true.
Proof. apply Qle_bool_iff. Qed.

Lemma includes_In (l : list ClassId) (c : ClassId) : includes l c = true ↔ In c l.
Proof.
  unfold includes. rewrite existsb_exists. split.
  - intros (x & Hx & E). apply Nat.eqb_eq in E. now subst.
  - intros H. exists c. split; [assumption | apply Nat.eqb_refl].
Qed.

Lemma includes_nonEmpty (l : list ClassId) (c : ClassId) :
  includes l c = true → nonEmpty l = true.
Proof. destruct l; [discriminate | reflexivity]. Qed.

(** ** Event logs *)

Lemma invocations_app (l1 l2 : list Event) :
  invocations (l1 ++ l2) = invocations l1 + invocations l2.
Proof. unfold invocations. now rewrite List.filter_app, length_app. Qed.

Lemma fallbackCalls_app (l1 l2 : list Event) :
  fallbackCalls (l1 ++ l2) = fallbackCalls l1 + fallbackCalls l2.
Proof. unfold fallbackCalls. now rewrite List.filter_app, length_app. Qed.

Lemma sleeps_app (l1 l2 : list Event) : sleeps (l1 ++ l2) = sleeps l1 ++ sleeps l2.
Proof.
  induction l1 as [|e l1 IH]; [reflexivity|].
  destruct e; simpl; now rewrite IH.
Qed.

Section Properties.

Context {State : Type}.

Implicit Types (fn : FunctionToExecute State) (g : Grit.t State) (w : World State)
  (b : GritBuilder.t State).

(** ** Construction *)

Lemma new_fresh (p : GritProps State) w g :
  Grit.new p w = Resolved g →
  g = fresh p ∧ Grit.validateGritConfig (heap w) (fresh p) = Valid.
Proof.
  unfold Grit.new, fresh. intros H.
  destruct (Grit.validateGritConfig _ _) eqn:E; [|discriminate].
  inversion H. auto.
Qed.

Lemma valid_retryCount (h : gmap nat (list Q)) g :
  Grit.validateGritConfig h g = Valid → ∃ rc, retryCount (Grit.props g) = Some rc.
Proof.
  unfold Grit.validateGritConfig. destruct (retryCount (Grit.props g)); [eauto|discriminate].
Qed.

(** ** The try block *)

Lemma tryOnce_effects fn g w o w1 :
  Grit.tryOnce fn g w = (o, w1) →
  heap w1 = heap w ∧ random w1 = random w ∧ draws w1 = draws w ∧
  ((log w1 = log w ∧ opState w1 = opState w) ∨
   (log w1 = log w ++ [EvInvoke (Grit.attempts g)] ∧
    opState w1 = snd (fn (Grit.attempts g) (opState w)))).
Proof.
  unfold Grit.tryOnce, Grit.withTimeout, Grit.race, Grit.invoke. intros H.
  destruct (fn (Grit.attempts g) (opState w)) as [inv s'] eqn:Efn.
  repeat match type of H with
         | context [match ?x with _ => _ end] => destruct x eqn:?
         end;
    inversion H; subst; simpl; auto 10.
Qed.

(** ** Termination: the budget is enough fuel *)

Lemma execute_fuel_total fn (fuel : nat) : ∀ g w rc,
  retryCount (Grit.props g) = Some rc →
  (Z.to_nat (rc - Z.of_nat (Grit.retries g)) < fuel)%nat →
  ∃ r, Grit.execute_fuel fuel fn g w = Some r.
Proof.
  induction fuel as [|fuel IH]; intros g w rc Hrc Hfuel; [lia|].
  cbn [Grit.execute_fuel].
  destruct (Grit.tryOnce fn g w) as [[v|e] w1]; [eauto|].
  unfold Grit.exhausted. rewrite Hrc.
  destruct (rc <=? Z.of_nat (Grit.retries g))%Z eqn:E.
  { destruct (fallback (Grit.props g)); [|eauto].
    destruct (Grit.callFallback _ _ _ _); eauto. }
  apply Z.leb_gt in E.
  destruct (Grit.filteredOut g e); [eauto|].
  assert (Hnext : (Z.to_nat (rc - Z.of_nat (Grit.retries (Grit.bump g))) < fuel)%nat)
    by (simpl; lia).
  destruct (delayTruthy _).
  - destruct (Grit.backoff _ _) as [[[]|e'] w2]; [|eauto].
    now apply IH with rc.
  - now apply IH with rc.
Qed.

Lemma execute_total fn g w :
  is_Some (retryCount (Grit.props g)) → ∃ r, Grit.execute fn g w = Some r.
Proof.
  intros [rc Hrc]. unfold Grit.execute.
  apply execute_fuel_total with rc; [assumption|].
  unfold Grit.budget. rewrite Hrc. lia.
Qed.



(** ** The safe entry point *)

Lemma safeAttempt_wraps fn g w :
  Grit.safeAttempt fn g w =
  match Grit.execute fn g w with
  | Some (o, g', w') => Some (Resolved (wrap o), g', w')
  | None => None
  end.
Proof.
  unfold Grit.safeAttempt.
  destruct (Grit.execute fn g w) as [[[[v|e] g'] w']|]; reflexivity.
Qed.

(** C2. Whenever the builder's configuration is valid (the engine is
    constructed), [safeAttempt] returns a promise that resolves, whatever the
    operation does: to [{result: v, error: null}] when the run that [attempt]
    performs ends in the value [v], and to [{result: null, error: e}] when it
    ends in the error [e]. *)
Theorem safeAttempt_never_rejects fn b w g :
  GritBuilder.build b w = Resolved g →
  ∃ o w',
    GritBuilder.attempt fn b w = Some (GritBuilder.Returned o, w') ∧
    GritBuilder.safeAttempt fn b w =
      Some (GritBuilder.Returned
              (Resolved match o with
                        | Resolved v => {| Grit.result := v; Grit.error := VNull |}
                        | Rejected e => {| Grit.result := VNull; Grit.error := e |}
                        end), w').
Proof.
  intros Hb. unfold GritBuilder.attempt, GritBuilder.safeAttempt. rewrite Hb.
  rewrite safeAttempt_wraps. unfold Grit.attempt.
  destruct (execute_total fn g w) as [[[o g'] w'] Hr].
  { unfold GritBuilder.build in Hb. apply new_fresh in Hb as [-> Hv].
    apply valid_retryCount in Hv as [rc Hrc]. rewrite Hrc. eauto. }
  rewrite Hr. exists o, w'. split; [reflexivity|]. now destruct o.
Qed.

(** ** The filters *)

(** C6. While the retry budget is not exhausted, an attempt that fails with
    an error whose class is in [skipErrors] ends the run at once with that
    error: no retry, no delay and no fallback follow, and the engine's
    counters stay as they are.  [onlyErrors] plays no part, so this holds
    also when it lists the same class. *)
Theorem skipErrors_checked_first (fuel : nat) fn g w e c w1 :
  Grit.exhausted g = false →
  Grit.tryOnce fn g w = (Rejected e, w1) →
  constructorOf e = Some c →
  In c (skipErrors (Grit.props g)) →
  Grit.execute_fuel (S fuel) fn g w = Some (Rejected e, g, w1).
Proof.
  intros Hex Htry Hc Hin. cbn [Grit.execute_fuel]. rewrite Htry, Hex.
  unfold Grit.filteredOut. rewrite Hc.
  apply includes_In in Hin. rewrite Hin, (includes_nonEmpty _ _ Hin). reflexivity.
Qed.

Lemma fresh_not_exhausted (p : GritProps State) (n : Z) :
  retryCount p = Some n → (0 < n)%Z → Grit.exhausted (fresh p) = false.
Proof.
  intros Hn Hpos. unfold Grit.exhausted, fresh. simpl. rewrite Hn.
  apply Z.leb_gt. lia.
Qed.

(** C7. With a non-empty [onlyErrors] and a positive retry count, a first
    attempt that fails with an error whose class is not in [onlyErrors] ends
    the run with that error.  The world is the one the first attempt left:
    the operation was invoked at most once, nothing was waited for and no
    fallback was called. *)
Theorem onlyErrors_miss_propagates fn b w g (n : Z) e c w1 :
  GritBuilder.b_retryCount b = Some n → (0 < n)%Z →
  GritBuilder.build b w = Resolved g →
  GritBuilder._onlyErrors b ≠ [] →
  Grit.tryOnce fn g w = (Rejected e, w1) →
  constructorOf e = Some c →
  ¬ In c (GritBuilder._onlyErrors b) →
  GritBuilder.attempt fn b w = Some (GritBuilder.Returned (Rejected e), w1) ∧
  (log w1 = log w ∨ log w1 = log w ++ [EvInvoke 1]) ∧
  sleeps (log w1) = sleeps (log w) ∧
  fallbackCalls (log w1) = fallbackCalls (log w).
Proof.
  intros Hn Hpos Hb Hne Htry Hc Hnin.
  unfold GritBuilder.attempt. rewrite Hb.
  unfold GritBuilder.build in Hb. apply new_fresh in Hb as [-> Hv].
  set (p := GritBuilder.buildProps b) in *.
  assert (Hrun : Grit.execute_fuel (Grit.budget (fresh p)) fn (fresh p) w
                 = Some (Rejected e, fresh p, w1)).
  { unfold Grit.budget. replace (retryCount (Grit.props (fresh p))) with (Some n) by (symmetry; exact Hn).
    cbn [Grit.execute_fuel]. rewrite Htry.
    rewrite (fresh_not_exhausted p n Hn Hpos).
    unfold Grit.filteredOut. rewrite Hc. simpl.
    destruct (nonEmpty (GritBuilder._skipErrors b) && includes (GritBuilder._skipErrors b) c);
      [reflexivity|].
    destruct (GritBuilder._onlyErrors b) as [|x l] eqn:El; [contradiction|].
    destruct (includes (x :: l) c) eqn:Ei; [|reflexivity].
    apply includes_In in Ei. contradiction. }
  unfold Grit.attempt, Grit.execute. rewrite Hrun. split; [reflexivity|].
  apply tryOnce_effects in Htry as (_ & _ & _ & Hlog).
  destruct Hlog as [[Hl _]|[Hl _]]; rewrite Hl.
  - auto.
  - rewrite sleeps_app, fallbackCalls_app. simpl.
    rewrite app_nil_r, Nat.add_0_r. auto.
Qed.

(** ** The timeout race *)

(** C9. When the timeout policy carries a cancellation signal that was
    aborted at or before the time the attempt starts, the attempt is rejected
    with the abort reason and the world is left as it was: the operation is
    not invoked.  The reason is the signal's own, or the generic
    [DOMException] when the signal carries [undefined] or [null]. *)
Theorem pre_aborted_signal fn g w o sg (ta : Q) :
  timeout (Grit.props g) = Some (TimeoutObj o) →
  tc_signal o = Some sg →
  abortedAt sg = Some ta →
  (ta <= now w)%Q →
  Grit.withTimeout fn g w = (Rejected (Grit.getAbortedReason sg), w) ∧
  Grit.tryOnce fn g w = (Rejected (Grit.getAbortedReason sg), w) ∧
  (reason sg ≠ VUndefined → reason sg ≠ VNull → Grit.getAbortedReason sg = reason sg) ∧
  (reason sg = VUndefined ∨ reason sg = VNull →
   Grit.getAbortedReason sg = new_DOMException "This operation was aborted.").
Proof.
  intros Ht Hs Ha Hle.
  assert (Hw : Grit.withTimeout fn g w = (Rejected (Grit.getAbortedReason sg), w)).
  { unfold Grit.withTimeout, Grit.getTimeoutConfig. rewrite Ht, Hs.
    unfold Grit.aborted. rewrite Ha, (Qleb_le _ _ Hle). reflexivity. }
  split; [exact Hw|]. split.
  - unfold Grit.tryOnce. rewrite Ht. simpl. exact Hw.
  - unfold Grit.getAbortedReason. split.
    + intros H1 H2. destruct (reason sg); congruence.
    + intros [-> | ->]; reflexivity.
Qed.

(** ** The delay of a valid engine is always usable *)

Lemma all_positive (arr : list Q) :
  existsb (λ x, Qleb x 0) arr = false → Forall (λ x, (0 < x)%Q) arr.
Proof.
  induction arr as [|x arr IH]; simpl; intros H; constructor.
  - apply Qleb_false. now destruct (Qleb x 0).
  - apply IH. now destruct (Qleb x 0).
Qed.

Lemma valid_delayInv (p : GritProps State) w :
  Grit.validateGritConfig (heap w) (fresh p) = Valid → delayInv (fresh p) w.
Proof.
  unfold Grit.validateGritConfig, delayInv, fresh. simpl.
  destruct (retryCount p) as [rc|]; [|discriminate].
  destruct (delay p) as [[ms|ref|d f|mn mx f]|]; simpl; try (intros _; exact I).
  - destruct (Z.of_nat (length (readArray (heap w) ref)) =? rc)%Z eqn:El;
      simpl; [|discriminate].
    destruct (existsb _ _) eqn:Ex; [discriminate|]. intros _.
    exists rc. apply Z.eqb_eq in El. repeat split; [lia|].
    now apply all_positive.
  - destruct (Qleb d 0) eqn:Ed; [discriminate|]. intros _. now apply Qleb_false.
  - destruct (negb (truthy mn)); [discriminate|].
    destruct (negb (truthy mx)); [discriminate|].
    destruct (Qleb mx mn) eqn:E1; [discriminate|].
    destruct (Qleb mn 0) eqn:E2; [discriminate|].
    intros _. split; now apply Qleb_false.
Qed.








(** ** Runs of the retry loop *)









(** ** Runs started from a builder *)

Lemma build_valid b w g :
  GritBuilder.build b w = Resolved g →
  g = fresh (GritBuilder.buildProps b) ∧ delayInv g w.
Proof.
  unfold GritBuilder.build. intros H.
  apply new_fresh in H as [-> Hv]. split; [reflexivity|].
  now apply valid_delayInv.
Qed.







(** ** Exponential delays *)


Lemma tryOnce_sleeps fn g w o w1 :
  Grit.tryOnce fn g w = (o, w1) → sleeps (log w1) = sleeps (log w).
Proof.
  intros H. apply tryOnce_effects in H as (_ & _ & _ & [[-> _]|[-> _]]);
    [reflexivity|].
  rewrite sleeps_app. simpl. now rewrite app_nil_r.
Qed.



(** ** Shared delay arrays *)

Lemma backoff_shifts g w ref r w2 :
  delay (Grit.props g) = Some (DelayArray ref) →
  Grit.backoff g w = (r, w2) →
  readArray (heap w2) ref = drop 1 (readArray (heap w) ref).
Proof.
  unfold Grit.backoff, Grit.currentDelay. intros ->.
  destruct (readArray (heap w) ref) as [|x rest] eqn:Earr.
  - intros H. inversion H; subst. now rewrite Earr.
  - assert (Hread : readArray (<[ref:=rest]> (heap w)) ref = rest)
      by (unfold readArray; now rewrite lookup_insert_eq).
    destruct (truthy x); [destruct (logging (Grit.props g))|];
      intros H; inversion H; subst; simpl; exact Hread.
Qed.

Lemma execute_array_drop fn (fuel : nat) : ∀ g w o g' w' ref,
  delay (Grit.props g) = Some (DelayArray ref) →
  Grit.execute_fuel fuel fn g w = Some (o, g', w') →
  Grit.retries g ≤ Grit.retries g' ∧
  readArray (heap w') ref =
    drop (Grit.retries g' - Grit.retries g) (readArray (heap w) ref).
Proof.
  induction fuel as [|fuel IH]; intros g w o g' w' ref Hd Hrun; [discriminate|].
  cbn [Grit.execute_fuel] in Hrun.
  destruct (Grit.tryOnce fn g w) as [[v|e] w1] eqn:Htry;
    apply tryOnce_effects in Htry as (Hheap & _).
  { inversion Hrun; subst. now rewrite Nat.sub_diag, Hheap. }
  destruct (Grit.exhausted g).
  { destruct (fallback (Grit.props g)) as [fb|].
    - unfold Grit.callFallback in Hrun.
      destruct (fb e (Grit.attempts g) (opState w1)) as [r s'].
      inversion Hrun; subst. simpl. now rewrite Nat.sub_diag, Hheap.
    - inversion Hrun; subst. now rewrite Nat.sub_diag, Hheap. }
  destruct (Grit.filteredOut g e).
  { inversion Hrun; subst. now rewrite Nat.sub_diag, Hheap. }
  simpl in Hrun. rewrite Hd in Hrun. simpl in Hrun.
  destruct (Grit.backoff (Grit.bump g) w1) as [[[]|e'] w2] eqn:Hb;
    apply (backoff_shifts _ _ ref) in Hb; try exact Hd.
  - apply (IH (Grit.bump g) w2 o g' w' ref Hd) in Hrun as [Hle Hdrop].
    simpl in Hle, Hdrop. split; [lia|].
    rewrite Hdrop, Hb, Hheap, drop_drop. f_equal. lia.
  - inversion Hrun; subst. simpl. split; [lia|].
    replace (S (Grit.retries g) - Grit.retries g) with 1 by lia.
    now rewrite Hb, Hheap.
Qed.

Lemma build_short_array_throws b w (rc : Z) ref :
  GritBuilder.b_retryCount b = Some rc →
  GritBuilder.b_delay b = Some (DelayArray ref) →
  Z.of_nat (length (readArray (heap w) ref)) ≠ rc →
  GritBuilder.build b w =
    Rejected (new_GritError "Delay array length must be equal to retry count").
Proof.
  intros Hrc Hd Hlen.
  unfold GritBuilder.build, Grit.new, Grit.validateGritConfig. simpl.
  rewrite Hrc, Hd. simpl.
  destruct (Z.of_nat (length (readArray (heap w) ref)) =? rc)%Z eqn:E;
    [apply Z.eqb_eq in E; contradiction|reflexivity].
Qed.


(** C10. An explicit delay array is the same heap object for the builder
    and for every engine it builds: a call of [attempt] leaves the array
    without its first [r] entries, [r] being the retries of the run.  If
    that made the array shorter, the next [attempt] or [safeAttempt] on the
    same builder throws the configuration error of the length check while
    constructing the engine, and changes nothing. *)
Theorem delay_array_shared_between_calls fn fn2 b w g ref :
  GritBuilder.b_delay b = Some (DelayArray ref) →
  GritBuilder.build b w = Resolved g →
  ∃ o g' w1,
    Grit.attempt fn g w = Some (o, g', w1) ∧
    GritBuilder.attempt fn b w = Some (GritBuilder.Returned o, w1) ∧
    readArray (heap w1) ref = drop (Grit.retries g') (readArray (heap w) ref) ∧
    (length (readArray (heap w1) ref) < length (readArray (heap w) ref) →
     GritBuilder.attempt fn2 b w1 =
       Some (GritBuilder.Threw
               (new_GritError "Delay array length must be equal to retry count"),
             w1) ∧
     GritBuilder.safeAttempt fn2 b w1 =
       Some (GritBuilder.Threw
               (new_GritError "Delay array length must be equal to retry count"),
             w1)).
Proof.
  intros Hd Hb.
  pose proof (build_valid b w g Hb) as [Hg Hinv].
  unfold GritBuilder.attempt at 1. rewrite Hb. subst g.
  set (p := GritBuilder.buildProps b) in *.
  assert (Hdp : delay (Grit.props (fresh p)) = Some (DelayArray ref)) by exact Hd.
  unfold delayInv in Hinv. rewrite Hdp in Hinv.
  destruct Hinv as (rc & Hrc & Hlen & _). simpl in Hrc, Hlen.
  destruct (execute_total fn (fresh p) w) as [[[o g'] w1] Hrun];
    [simpl; rewrite Hrc; eauto|].
  unfold Grit.attempt. rewrite Hrun. exists o, g', w1.
  split; [reflexivity|]. split; [reflexivity|].
  unfold Grit.execute in Hrun.
  apply (execute_array_drop fn _ _ _ _ _ _ ref Hdp) in Hrun as [_ Hdrop].
  simpl in Hdrop. rewrite Nat.sub_0_r in Hdrop.
  split; [exact Hdrop|].
  intros Hshort.
  assert (Hthrow : GritBuilder.build b w1 =
            Rejected (new_GritError "Delay array length must be equal to retry count")).
  { apply build_short_array_throws with rc ref; [exact Hrc|exact Hd|lia]. }
  unfold GritBuilder.attempt, GritBuilder.safeAttempt. rewrite Hthrow. auto.
Qed.

(** ** Scalar delays *)

Lemma negative_scalar_delay_throws b w (ms : Q) :
  GritBuilder.b_delay b = Some (DelayNumber ms) → (ms < 0)%Q →
  ∃ e, GritBuilder.build b w = Rejected e ∧ constructorOf e = Some GritError.
Proof.
  intros Hd Hneg.
  unfold GritBuilder.build, Grit.new, Grit.validateGritConfig. simpl. rewrite Hd.
  destruct (GritBuilder.b_retryCount b); [|eauto].
  simpl. rewrite truthy_nonzero.
  - unfold Qltb. destruct (Qle_bool 0 ms) eqn:E; simpl; [|eauto].
    apply Qle_bool_iff in E. exfalso. exact (Qlt_not_le _ _ Hneg E).
  - intros E. rewrite E in Hneg. exact (Qlt_irrefl 0 Hneg).
Qed.

Lemma execute_without_delay fn (fuel : nat) : ∀ g w o g' w',
  delayTruthy (delay (Grit.props g)) = false →
  Grit.execute_fuel fuel fn g w = Some (o, g', w') →
  sleeps (log w') = sleeps (log w).
Proof.
  induction fuel as [|fuel IH]; intros g w o g' w' Hd Hrun; [discriminate|].
  cbn [Grit.execute_fuel] in Hrun.
  destruct (Grit.tryOnce fn g w) as [[v|e] w1] eqn:Htry;
    apply tryOnce_sleeps in Htry.
  { inversion Hrun; subst. exact Htry. }
  destruct (Grit.exhausted g).
  { destruct (fallback (Grit.props g)) as [fb|].
    - unfold Grit.callFallback in Hrun.
      destruct (fb e (Grit.attempts g) (opState w1)) as [r s'].
      inversion Hrun; subst. simpl. rewrite sleeps_app, Htry. simpl.
      now rewrite app_nil_r.
    - inversion Hrun; subst. exact Htry. }
  destruct (Grit.filteredOut g e).
  { inversion Hrun; subst. exact Htry. }
  simpl in Hrun. rewrite Hd in Hrun.
  apply (IH (Grit.bump g) w1 o g' w' Hd) in Hrun. congruence.
Qed.

(** C4, at the input where the code departs from it: with the scalar delay
    0 and any retry count, [validateGritConfig] skips the delay checks (0 is
    falsy), so no configuration error is raised: the engine is constructed,
    [attempt] returns a promise and the run waits between no two
    attempts. *)
Theorem zero_scalar_delay_is_accepted (rc : Z) fn w :
  let b := GritBuilder.withDelay (DelayNumber 0) (GritBuilder.new rc) in
  GritBuilder.build b w = Resolved (fresh (GritBuilder.buildProps b)) ∧
  ∃ o w', GritBuilder.attempt fn b w = Some (GritBuilder.Returned o, w') ∧
          sleeps (log w') = sleeps (log w).
Proof.
  intros b. split; [reflexivity|].
  unfold GritBuilder.attempt.
  change (GritBuilder.build b w) with (Resolved (fresh (GritBuilder.buildProps b))).
  cbv iota. unfold Grit.attempt.
  destruct (execute_total fn (fresh (GritBuilder.buildProps b)) w)
    as [[[o g'] w'] Hrun]; [simpl; eauto|].
  rewrite Hrun. exists o, w'. split; [reflexivity|].
  unfold Grit.execute in Hrun.
  exact (execute_without_delay fn _ (fresh (GritBuilder.buildProps b)) w o g' w'
           eq_refl Hrun).
Qed.

End Properties.

(** * Further properties of the code *)

Section Further.

Context {State : Type}.

Implicit Types (fn : FunctionToExecute State) (g : Grit.t State) (w : World State)
  (b : GritBuilder.t State).

(** ** Event logs *)


Lemma invocations_invoked (l : list Event) : invocations l = length (invoked l).
Proof.
  unfold invocations. induction l as [|e l IH]; [reflexivity|].
  destruct e; simpl; now rewrite IH.
Qed.

Lemma withoutDebug_app (l1 l2 : list Event) :
  withoutDebug (l1 ++ l2) = withoutDebug l1 ++ withoutDebug l2.
Proof.
  induction l1 as [|e l1 IH]; [reflexivity|].
  destruct e; simpl; now rewrite IH.
Qed.

(** ** The cases of a run

    Every terminated run of [#execute] is built from seven cases: the four
    ways in which an attempt ends the run, the retry whose delay cannot be
    computed, and the retries with and without a wait.  A property of all
    runs is proved by showing it in each case. *)
Lemma execute_cases fn
    (P : Grit.t State → World State → Outcome Value → Grit.t State → World State → Prop) :
  (∀ g w v w1,
     Grit.tryOnce fn g w = (Resolved v, w1) → P g w (Resolved v) g w1) →
  (∀ g w e w1 fb r w2,
     Grit.tryOnce fn g w = (Rejected e, w1) → Grit.exhausted g = true →
     fallback (Grit.props g) = Some fb → Grit.callFallback fb e g w1 = (r, w2) →
     P g w r g w2) →
  (∀ g w e w1,
     Grit.tryOnce fn g w = (Rejected e, w1) → Grit.exhausted g = true →
     fallback (Grit.props g) = None → P g w (Rejected e) g w1) →
  (∀ g w e w1,
     Grit.tryOnce fn g w = (Rejected e, w1) → Grit.exhausted g = false →
     Grit.filteredOut g e = true → P g w (Rejected e) g w1) →
  (∀ g w e w1 e' w2,
     Grit.tryOnce fn g w = (Rejected e, w1) → Grit.exhausted g = false →
     Grit.filteredOut g e = false → delayTruthy (delay (Grit.props g)) = true →
     Grit.backoff (Grit.bump g) w1 = (Rejected e', w2) →
     P g w (Rejected e') (Grit.bump g) w2) →
  (∀ g w e w1 w2 o g' w',
     Grit.tryOnce fn g w = (Rejected e, w1) → Grit.exhausted g = false →
     Grit.filteredOut g e = false → delayTruthy (delay (Grit.props g)) = true →
     Grit.backoff (Grit.bump g) w1 = (Resolved (), w2) →
     P (Grit.bump g) w2 o g' w' → P g w o g' w') →
  (∀ g w e w1 o g' w',
     Grit.tryOnce fn g w = (Rejected e, w1) → Grit.exhausted g = false →
     Grit.filteredOut g e = false → delayTruthy (delay (Grit.props g)) = false →
     P (Grit.bump g) w1 o g' w' → P g w o g' w') →
  ∀ (fuel : nat) g w o g' w',
    Grit.execute_fuel fuel fn g w = Some (o, g', w') → P g w o g' w'.
Proof.
  intros Hok Hfb Hlast Hfilter Hfault Hwait Hnow.
  induction fuel as [|fuel IH]; intros g w o g' w' Hrun; [discriminate|].
  cbn [Grit.execute_fuel] in Hrun.
  destruct (Grit.tryOnce fn g w) as [[v|e] w1] eqn:Htry.
  { inversion Hrun; subst. eauto. }
  destruct (Grit.exhausted g) eqn:Hex.
  { destruct (fallback (Grit.props g)) as [fb|] eqn:Efb.
    - destruct (Grit.callFallback fb e g w1) as [r w2] eqn:Ecall.
      inversion Hrun; subst. eauto.
    - inversion Hrun; subst. eauto. }
  destruct (Grit.filteredOut g e) eqn:Hf.
  { inversion Hrun; subst. eauto. }
  destruct (delayTruthy (delay (Grit.props (Grit.bump g)))) eqn:Hd.
  - destruct (Grit.backoff (Grit.bump g) w1) as [[[]|e'] w2] eqn:Hb.
    + eapply Hwait; eauto.
    + inversion Hrun; subst. eapply Hfault; eauto.
  - eapply Hnow; eauto.
Qed.

(** ** The counters *)

(** The retries of a run stop at the retry count. *)
Lemma execute_retries_bounded fn (fuel : nat) g w o g' w' (rc : Z) :
  Grit.execute_fuel fuel fn g w = Some (o, g', w') →
  retryCount (Grit.props g) = Some rc →
  Grit.retries g ≤ Grit.retries g' ∧
  (Z.of_nat (Grit.retries g') <= Z.max rc (Z.of_nat (Grit.retries g)))%Z.
Proof.
  intros Hrun. revert rc. pattern g, w, o, g', w'.
  eapply (execute_cases fn); [| | | | | | |exact Hrun]; clear;
    try (intros; split; lia).
  - intros g w e w1 e' w2 _ Hex _ _ _ rc Hrc.
    unfold Grit.exhausted in Hex. rewrite Hrc in Hex. apply Z.leb_gt in Hex.
    simpl. lia.
  - intros g w e w1 w2 o g' w' _ Hex _ _ _ IH rc Hrc.
    unfold Grit.exhausted in Hex. rewrite Hrc in Hex. apply Z.leb_gt in Hex.
    destruct (IH rc Hrc) as [Hr Hle]. simpl in *. lia.
  - intros g w e w1 o g' w' _ Hex _ _ IH rc Hrc.
    unfold Grit.exhausted in Hex. rewrite Hrc in Hex. apply Z.leb_gt in Hex.
    destruct (IH rc Hrc) as [Hr Hle]. simpl in *. lia.
Qed.

(** X1. Whatever the operation and the configuration, a run leaves the
    engine's properties as they are, raises [attempts] and [retries] by the
    same amount, and stops retrying at the retry count: [retries] ends at
    most at the larger of the retry count and its value at the start. *)
Theorem counters_move_together fn (fuel : nat) g w o g' w' (rc : Z) :
  Grit.execute_fuel fuel fn g w = Some (o, g', w') →
  retryCount (Grit.props g) = Some rc →
  Grit.props g' = Grit.props g ∧
  Grit.retries g ≤ Grit.retries g' ∧
  Grit.attempts g' + Grit.retries g = Grit.attempts g + Grit.retries g' ∧
  (Z.of_nat (Grit.retries g') <= Z.max rc (Z.of_nat (Grit.retries g)))%Z.
Proof.
  intros Hrun. revert rc. pattern g, w, o, g', w'.
  eapply (execute_cases fn); [| | | | | | |exact Hrun]; clear.
  - intros g w v w1 _ rc _. repeat split; (reflexivity || lia).
  - intros g w e w1 fb r w2 _ _ _ _ rc _. repeat split; (reflexivity || lia).
  - intros g w e w1 _ _ _ rc _. repeat split; (reflexivity || lia).
  - intros g w e w1 _ _ _ rc _. repeat split; (reflexivity || lia).
  - intros g w e w1 e' w2 _ Hex _ _ _ rc Hrc.
    unfold Grit.exhausted in Hex. rewrite Hrc in Hex. apply Z.leb_gt in Hex.
    repeat split; simpl; (reflexivity || lia).
  - intros g w e w1 w2 o g' w' _ Hex _ _ _ IH rc Hrc.
    unfold Grit.exhausted in Hex. rewrite Hrc in Hex. apply Z.leb_gt in Hex.
    destruct (IH rc Hrc) as (Hp & Hr & Ha & Hle).
    simpl in *. repeat split; (assumption || lia).
  - intros g w e w1 o g' w' _ Hex _ _ IH rc Hrc.
    unfold Grit.exhausted in Hex. rewrite Hrc in Hex. apply Z.leb_gt in Hex.
    destruct (IH rc Hrc) as (Hp & Hr & Ha & Hle).
    simpl in *. repeat split; (assumption || lia).
Qed.

(** ** What the steps of a run do to the world *)

Lemma currentDelay_effects g w r w1 :
  Grit.currentDelay g w = (r, w1) →
  opState w1 = opState w ∧ random w1 = random w ∧ now w1 = now w ∧
  (log w1 = log w ∨ ∃ ms, r = Resolved ms ∧ log w1 = log w ++ [EvDebug ms]).
Proof.
  unfold Grit.currentDelay, draw.
  destruct (delay (Grit.props g)) as [[ms|ref|d f|mn mx f]|];
    [ | destruct (readArray (heap w) ref) as [|x rest] | | | ];
    repeat match goal with
           | |- context [if ?x then _ else _] => destruct x
           end;
    intros H; inversion H; subst; simpl; eauto 10.
Qed.

Lemma backoff_effects g w r w2 :
  Grit.backoff g w = (r, w2) →
  opState w2 = opState w ∧ random w2 = random w ∧
  ∃ tr, log w2 = log w ++ tr ∧ invoked tr = [] ∧ fallbackCalls tr = 0.
Proof.
  unfold Grit.backoff.
  destruct (Grit.currentDelay g w) as [[ms|e] w1] eqn:Hcd;
    apply currentDelay_effects in Hcd as (Hop & Hrnd & _ & Hlog);
    intros H; inversion H; subst; simpl; (split; [assumption|]); (split; [assumption|]).
  - destruct Hlog as [-> | (ms' & _ & ->)].
    + exists [EvSleep ms]. auto.
    + exists [EvDebug ms'; EvSleep ms]. rewrite <- app_assoc. auto.
  - destruct Hlog as [-> | (ms' & Habs & _)]; [|discriminate].
    exists []. rewrite app_nil_r. auto.
Qed.

Lemma callFallback_effects (fb : FallbackFunction State) e g w r w2 :
  Grit.callFallback fb e g w = (r, w2) →
  r = fst (fb e (Grit.attempts g) (opState w)) ∧
  opState w2 = snd (fb e (Grit.attempts g) (opState w)) ∧
  heap w2 = heap w ∧ random w2 = random w ∧ now w2 = now w ∧
  log w2 = log w ++ [EvFallback e (Grit.attempts g)].
Proof.
  unfold Grit.callFallback. destruct (fb e (Grit.attempts g) (opState w)) as [r' s'].
  intros H. inversion H; subst. simpl. auto 10.
Qed.

Lemma tryOnce_log fn g w o w1 :
  Grit.tryOnce fn g w = (o, w1) →
  ∃ tr, log w1 = log w ++ tr ∧
        (tr = [] ∨ tr = [EvInvoke (Grit.attempts g)]).
Proof.
  intros H. apply tryOnce_effects in H as (_ & _ & _ & [[Hl _]|[Hl _]]).
  - exists []. rewrite app_nil_r. auto.
  - eauto.
Qed.

(** ** The operation is never invoked more often than the budget allows *)

Lemma execute_invocations fn (fuel : nat) g w o g' w' :
  Grit.execute_fuel fuel fn g w = Some (o, g', w') →
  Grit.retries g ≤ Grit.retries g' ∧
  invocations (log w') + Grit.retries g ≤ invocations (log w) + Grit.retries g' + 1.
Proof.
  intros Hrun. pattern g, w, o, g', w'.
  eapply (execute_cases fn); [| | | | | | |exact Hrun]; clear.
  - intros g w v w1 Htry.
    apply tryOnce_log in Htry as (tr & -> & [-> | ->]);
      rewrite invocations_app; unfold invocations; simpl; lia.
  - intros g w e w1 fb r w2 Htry _ _ Hcall.
    apply callFallback_effects in Hcall as (_ & _ & _ & _ & _ & ->).
    apply tryOnce_log in Htry as (tr & -> & [-> | ->]);
      rewrite !invocations_app; unfold invocations; simpl; lia.
  - intros g w e w1 Htry _ _.
    apply tryOnce_log in Htry as (tr & -> & [-> | ->]);
      rewrite invocations_app; unfold invocations; simpl; lia.
  - intros g w e w1 Htry _ _.
    apply tryOnce_log in Htry as (tr & -> & [-> | ->]);
      rewrite invocations_app; unfold invocations; simpl; lia.
  - intros g w e w1 e' w2 Htry _ _ _ Hb.
    apply backoff_effects in Hb as (_ & _ & tr2 & -> & Hi & _).
    apply tryOnce_log in Htry as (tr & -> & [-> | ->]);
      rewrite !invocations_app, (invocations_invoked tr2), Hi;
      unfold invocations; simpl; lia.
  - intros g w e w1 w2 o g' w' Htry _ _ _ Hb [IH1 IH2].
    apply backoff_effects in Hb as (_ & _ & tr2 & Hl2 & Hi & _).
    rewrite Hl2 in IH2.
    apply tryOnce_log in Htry as (tr & Hl & Htr). rewrite Hl in IH2.
    rewrite !invocations_app, (invocations_invoked tr2), Hi in IH2.
    simpl in *. destruct Htr as [-> | ->]; unfold invocations in *; simpl in *; lia.
  - intros g w e w1 o g' w' Htry _ _ _ [IH1 IH2].
    apply tryOnce_log in Htry as (tr & Hl & Htr). rewrite Hl in IH2.
    rewrite !invocations_app in IH2.
    simpl in *. destruct Htr as [-> | ->]; unfold invocations in *; simpl in *; lia.
Qed.

(** X2. Whatever the operation does (fail, succeed, exceed the timeout) and
    whatever the rest of the configuration, one call of the builder's
    [attempt] with retry count [n] invokes the operation at most [n + 1]
    times ([1] time when [n] is negative). *)
Theorem never_more_than_budget fn b w r w' (n : Z) :
  GritBuilder.b_retryCount b = Some n →
  GritBuilder.attempt fn b w = Some (r, w') →
  invocations (log w') ≤ invocations (log w) + Z.to_nat n + 1.
Proof.
  intros Hn. unfold GritBuilder.attempt.
  destruct (GritBuilder.build b w) as [g|e] eqn:Hb;
    [|intros H; inversion H; subst; lia].
  unfold GritBuilder.build in Hb. apply new_fresh in Hb as [-> _].
  unfold Grit.attempt, Grit.execute.
  destruct (Grit.execute_fuel _ fn _ w) as [[[o g'] w'']|] eqn:Hrun; [|discriminate].
  intros H. inversion H; subst.
  pose proof (execute_invocations fn _ _ _ _ _ _ Hrun) as [_ Hi].
  pose proof (execute_retries_bounded fn _ _ _ _ _ _ n Hrun Hn) as [_ Hle].
  simpl in *. lia.
Qed.

(** ** The fallback *)

(** X3. In every run the fallback is called at most once.  When it is
    called, the retry budget is exhausted, the call is the last event of the
    run and it receives the final attempt number; its outcome is the outcome
    of the run. *)
Theorem fallback_only_at_the_end fn (fuel : nat) g w o g' w' :
  Grit.execute_fuel fuel fn g w = Some (o, g', w') →
  fallbackCalls (log w') = fallbackCalls (log w) ∨
  (Grit.exhausted g' = true ∧
   ∃ l e fb s,
     fallback (Grit.props g') = Some fb ∧
     log w' = l ++ [EvFallback e (Grit.attempts g')] ∧
     fallbackCalls l = fallbackCalls (log w) ∧
     o = fst (fb e (Grit.attempts g') s) ∧ opState w' = snd (fb e (Grit.attempts g') s)).
Proof.
  intros Hrun. pattern g, w, o, g', w'.
  eapply (execute_cases fn); [| | | | | | |exact Hrun]; clear.
  - intros g w v w1 Htry. left.
    apply tryOnce_log in Htry as (tr & -> & [-> | ->]);
      rewrite fallbackCalls_app; unfold fallbackCalls; simpl; lia.
  - intros g w e w1 fb r w2 Htry Hex Hfb Hcall. right. split; [exact Hex|].
    apply callFallback_effects in Hcall as (-> & Hop & _ & _ & _ & ->).
    exists (log w1), e, fb, (opState w1). repeat split; try assumption.
    apply tryOnce_log in Htry as (tr & -> & [-> | ->]);
      rewrite fallbackCalls_app; unfold fallbackCalls; simpl; lia.
  - intros g w e w1 Htry _ _. left.
    apply tryOnce_log in Htry as (tr & -> & [-> | ->]);
      rewrite fallbackCalls_app; unfold fallbackCalls; simpl; lia.
  - intros g w e w1 Htry _ _. left.
    apply tryOnce_log in Htry as (tr & -> & [-> | ->]);
      rewrite fallbackCalls_app; unfold fallbackCalls; simpl; lia.
  - intros g w e w1 e' w2 Htry _ _ _ Hb. left.
    apply backoff_effects in Hb as (_ & _ & tr2 & -> & _ & Hf).
    apply tryOnce_log in Htry as (tr & -> & [-> | ->]);
      rewrite !fallbackCalls_app, Hf; unfold fallbackCalls; simpl; lia.
  - intros g w e w1 w2 o g' w' Htry _ _ _ Hb IH.
    apply backoff_effects in Hb as (_ & _ & tr2 & Hl2 & _ & Hf).
    assert (Hsame : fallbackCalls (log w2) = fallbackCalls (log w)).
    { rewrite Hl2. apply tryOnce_log in Htry as (tr & -> & [-> | ->]);
        rewrite !fallbackCalls_app, Hf; unfold fallbackCalls; simpl; lia. }
    rewrite Hsame in IH. exact IH.
  - intros g w e w1 o g' w' Htry _ _ _ IH.
    assert (Hsame : fallbackCalls (log w1) = fallbackCalls (log w)).
    { apply tryOnce_log in Htry as (tr & -> & [-> | ->]);
        rewrite !fallbackCalls_app; unfold fallbackCalls; simpl; lia. }
    rewrite Hsame in IH. exact IH.
Qed.

(** ** What [validateGritConfig] accepts *)

Lemma none_nonpositive (arr : list Q) :
  Forall (λ x, (0 < x)%Q) arr → existsb (λ x, Qleb x 0) arr = false.
Proof.
  induction 1 as [|x arr Hx _ IH]; [reflexivity|].
  simpl. rewrite IH, orb_false_r.
  destruct (Qleb x 0) eqn:E; [|reflexivity].
  apply Qleb_true in E. exfalso. exact (Qlt_not_le _ _ Hx E).
Qed.

Lemma build_resolved_iff b w :
  (∃ g, GritBuilder.build b w = Resolved g) ↔
  Grit.validateGritConfig (heap w) (fresh (GritBuilder.buildProps b)) = Valid.
Proof.
  unfold GritBuilder.build, Grit.new. fold (fresh (GritBuilder.buildProps b)).
  destruct (Grit.validateGritConfig _ _); split; eauto; try discriminate.
  intros [g Hg]. discriminate.
Qed.

(** X4. With an explicit delay array, the engine is constructed exactly when
    the array has as many entries as the retry count and all of them are
    positive; the timeout policy plays no part. *)
Theorem delay_array_accepted_iff b w (rc : Z) ref :
  GritBuilder.b_retryCount b = Some rc →
  GritBuilder.b_delay b = Some (DelayArray ref) →
  (∃ g, GritBuilder.build b w = Resolved g) ↔
  (Z.of_nat (length (readArray (heap w) ref)) = rc ∧
   Forall (λ x, (0 < x)%Q) (readArray (heap w) ref)).
Proof.
  intros Hrc Hd. rewrite build_resolved_iff.
  unfold Grit.validateGritConfig. simpl. rewrite Hrc, Hd. simpl.
  destruct (Z.of_nat (length (readArray (heap w) ref)) =? rc)%Z eqn:El; simpl.
  - apply Z.eqb_eq in El.
    destruct (existsb _ _) eqn:Ex.
    + split; [discriminate|]. intros [_ Hpos].
      apply none_nonpositive in Hpos. congruence.
    + split; [|reflexivity]. intros _. split; [exact El|now apply all_positive].
  - apply Z.eqb_neq in El. split; [discriminate|]. intros [Hl _]. contradiction.
Qed.

(** X5. With a random delay [{minDelay, maxDelay}] and no timeout policy,
    the engine is constructed exactly when [0 < minDelay < maxDelay]; the
    factor is not checked. *)
Theorem random_delay_accepted_iff b w (rc : Z) (mn mx : Q) (f : option Q) :
  GritBuilder.b_retryCount b = Some rc →
  GritBuilder.b_delay b = Some (DelayRandom mn mx f) →
  GritBuilder.b_timeout b = None →
  (∃ g, GritBuilder.build b w = Resolved g) ↔ ((0 < mn)%Q ∧ (mn < mx)%Q).
Proof.
  intros Hrc Hd Ht. rewrite build_resolved_iff.
  unfold Grit.validateGritConfig. simpl. rewrite Hrc, Hd, Ht. simpl.
  split.
  - destruct (negb (truthy mn)); [discriminate|].
    destruct (negb (truthy mx)); [discriminate|].
    destruct (Qleb mx mn) eqn:E1; [discriminate|].
    destruct (Qleb mn 0) eqn:E2; [discriminate|].
    intros _. split; now apply Qleb_false.
  - intros [Hmn Hlt].
    assert (Hmx : (0 < mx)%Q) by (now apply Qlt_trans with mn).
    rewrite (truthy_positive _ Hmn), (truthy_positive _ Hmx). simpl.
    assert (E1 : Qleb mx mn = false).
    { destruct (Qleb mx mn) eqn:E; [|reflexivity].
      apply Qleb_true in E. exfalso. exact (Qlt_not_le _ _ Hlt E). }
    assert (E2 : Qleb mn 0 = false).
    { destruct (Qleb mn 0) eqn:E; [|reflexivity].
      apply Qleb_true in E. exfalso. exact (Qlt_not_le _ _ Hmn E). }
    assert (E3 : Qleb mx 0 = false).
    { destruct (Qleb mx 0) eqn:E; [|reflexivity].
      apply Qleb_true in E. exfalso. exact (Qlt_not_le _ _ Hmx E). }
    now rewrite E1, E2, E3.
Qed.

(** X6. Once a scalar, array or exponential delay is configured (any truthy
    delay but the random form), [validateGritConfig] returns or throws
    before it reaches the timeout checks: its verdict is the same for every
    timeout policy, valid or not. *)
Theorem timeout_unchecked_behind_delay b w (d : DelayConfig) (t : TimeoutConfig) :
  GritBuilder.b_delay b = Some d →
  delayTruthy (Some d) = true →
  (∀ mn mx f, d ≠ DelayRandom mn mx f) →
  GritBuilder.build (GritBuilder.withTimeout t b) w =
  match GritBuilder.build b w with
  | Resolved g => Resolved (withProps (GritBuilder.buildProps (GritBuilder.withTimeout t b)) g)
  | Rejected e => Rejected e
  end.
Proof.
  intros Hd Htruthy Hform.
  unfold GritBuilder.build, Grit.new, Grit.validateGritConfig. simpl.
  rewrite Hd. destruct (GritBuilder.b_retryCount b) as [rc|]; [|reflexivity].
  rewrite Htruthy.
  destruct d as [ms|ref|dl f|mn mx f]; simpl.
  - destruct (Qltb ms 0); reflexivity.
  - destruct (negb _); [reflexivity|]. destruct (existsb _ _); reflexivity.
  - destruct (Qleb dl 0); reflexivity.
  - exfalso. exact (Hform mn mx f eq_refl).
Qed.


(** ** Runs of a valid engine *)







(** ** The waits of the other delay forms *)

Lemma backoff_array g w r w2 ref :
  delay (Grit.props g) = Some (DelayArray ref) →
  Forall (λ x, (0 < x)%Q) (readArray (heap w) ref) →
  Grit.backoff g w = (r, w2) →
  sleeps (log w2) = sleeps (log w) ++ take 1 (readArray (heap w) ref) ∧
  readArray (heap w2) ref = drop 1 (readArray (heap w) ref).
Proof.
  intros Hd Hpos Hb. split; [|exact (backoff_shifts g w ref r w2 Hd Hb)].
  revert Hb. unfold Grit.backoff, Grit.currentDelay. rewrite Hd.
  destruct (readArray (heap w) ref) as [|x rest].
  - intros H. inversion H; subst. simpl. now rewrite app_nil_r.
  - apply Forall_cons in Hpos as [Hx _]. rewrite (truthy_positive _ Hx).
    destruct (logging (Grit.props g)); intros H; inversion H; subst; simpl;
      rewrite !sleeps_app; simpl; now rewrite ?app_nil_r.
Qed.

(** X10. With an explicit delay array, the waits of a run are the entries
    the array held when the engine was built, from the front and in order,
    one per retry. *)
Theorem array_waits_in_order fn b w g ref o g' w' :
  GritBuilder.b_delay b = Some (DelayArray ref) →
  GritBuilder.build b w = Resolved g →
  Grit.attempt fn g w = Some (o, g', w') →
  sleeps (log w') = sleeps (log w) ++ take (Grit.retries g') (readArray (heap w) ref).
Proof.
  intros Hd Hb Hrun.
  pose proof (build_valid b w g Hb) as [Hg Hinv].
  assert (Hdg : delay (Grit.props g) = Some (DelayArray ref)) by (subst g; exact Hd).
  assert (Hpos : Forall (λ x, (0 < x)%Q) (readArray (heap w) ref)).
  { unfold delayInv in Hinv. rewrite Hdg in Hinv. now destruct Hinv as (_ & _ & _ & ?). }
  assert (Hgoal : delay (Grit.props g) = Some (DelayArray ref) →
                  Forall (λ x, (0 < x)%Q) (readArray (heap w) ref) →
                  Grit.retries g ≤ Grit.retries g' ∧
                  sleeps (log w') =
                    sleeps (log w) ++
                    take (Grit.retries g' - Grit.retries g) (readArray (heap w) ref)).
  { unfold Grit.attempt, Grit.execute in Hrun. clear Hdg Hpos Hinv.
    pattern g, w, o, g', w'.
    eapply (execute_cases fn); [| | | | | | |exact Hrun]; clear.
    - intros g w v w1 Htry _ _. apply tryOnce_sleeps in Htry.
      rewrite Htry, Nat.sub_diag, take_0, app_nil_r. auto.
    - intros g w e w1 fb r w2 Htry _ _ Hcall _ _.
      apply callFallback_effects in Hcall as (_ & _ & _ & _ & _ & ->).
      apply tryOnce_sleeps in Htry.
      rewrite sleeps_app, Htry, Nat.sub_diag, take_0. simpl. auto.
    - intros g w e w1 Htry _ _ _ _. apply tryOnce_sleeps in Htry.
      rewrite Htry, Nat.sub_diag, take_0, app_nil_r. auto.
    - intros g w e w1 Htry _ _ _ _. apply tryOnce_sleeps in Htry.
      rewrite Htry, Nat.sub_diag, take_0, app_nil_r. auto.
    - intros g w e w1 e' w2 Htry _ _ _ Hb Hd Hpos.
      pose proof (tryOnce_effects fn g w _ _ Htry) as (Hheap & _).
      apply tryOnce_sleeps in Htry.
      assert (Hpos1 : Forall (λ x, (0 < x)%Q) (readArray (heap w1) ref))
        by (rewrite Hheap; exact Hpos).
      destruct (backoff_array (Grit.bump g) w1 _ w2 ref Hd Hpos1 Hb) as [Hs _].
      simpl. split; [lia|].
      replace (S (Grit.retries g) - Grit.retries g) with 1 by lia.
      now rewrite Hs, Htry, Hheap.
    - intros g w e w1 w2 o g' w' Htry _ _ _ Hb IH Hd Hpos.
      pose proof (tryOnce_effects fn g w _ _ Htry) as (Hheap & _).
      apply tryOnce_sleeps in Htry.
      assert (Hpos1 : Forall (λ x, (0 < x)%Q) (readArray (heap w1) ref))
        by (rewrite Hheap; exact Hpos).
      destruct (backoff_array (Grit.bump g) w1 _ w2 ref Hd Hpos1 Hb) as [Hs Hdrop].
      destruct (IH Hd) as [IH1 IH2].
      { rewrite Hdrop, Hheap. now apply Forall_drop. }
      simpl in IH1, IH2. split; [lia|].
      rewrite IH2, Hs, Hdrop, Htry, Hheap, <- app_assoc. f_equal.
      replace (Grit.retries g' - Grit.retries g)
        with (1 + (Grit.retries g' - S (Grit.retries g))) by lia.
      now rewrite <- take_take_drop.
    - intros g w e w1 o g' w' _ _ _ Hdt _ Hd _. rewrite Hd in Hdt. discriminate. }
  destruct (Hgoal Hdg Hpos) as [_ Hs]. subst g. simpl in Hs.
  now rewrite Nat.sub_0_r in Hs.
Qed.

Lemma backoff_number g w r w2 (ms : Q) :
  delay (Grit.props g) = Some (DelayNumber ms) →
  truthy ms = true →
  Grit.backoff g w = (r, w2) →
  r = Resolved () ∧ sleeps (log w2) = sleeps (log w) ++ [ms].
Proof.
  unfold Grit.backoff, Grit.currentDelay. intros -> ->.
  destruct (logging (Grit.props g)); intros H; inversion H; subst; simpl;
    rewrite !sleeps_app; simpl; now rewrite ?app_nil_r.
Qed.

(** X11. With a scalar delay other than 0, every wait of a run is that
    delay: the waits are as many copies of it as the run has retries. *)
Theorem scalar_waits_are_constant fn b w g (ms : Q) o g' w' :
  GritBuilder.b_delay b = Some (DelayNumber ms) →
  ¬ (ms == 0)%Q →
  GritBuilder.build b w = Resolved g →
  Grit.attempt fn g w = Some (o, g', w') →
  sleeps (log w') = sleeps (log w) ++ replicate (Grit.retries g') ms.
Proof.
  intros Hd Hnz Hb Hrun.
  pose proof (build_valid b w g Hb) as [Hg _].
  assert (Hdg : delay (Grit.props g) = Some (DelayNumber ms)) by (subst g; exact Hd).
  apply truthy_nonzero in Hnz.
  assert (Hgoal : delay (Grit.props g) = Some (DelayNumber ms) →
                  Grit.retries g ≤ Grit.retries g' ∧
                  sleeps (log w') =
                    sleeps (log w) ++ replicate (Grit.retries g' - Grit.retries g) ms).
  { unfold Grit.attempt, Grit.execute in Hrun. clear Hdg.
    pattern g, w, o, g', w'.
    eapply (execute_cases fn); [| | | | | | |exact Hrun]; clear - Hnz.
    - intros g w v w1 Htry _. apply tryOnce_sleeps in Htry.
      rewrite Htry, Nat.sub_diag. simpl. rewrite app_nil_r. auto.
    - intros g w e w1 fb r w2 Htry _ _ Hcall _.
      apply callFallback_effects in Hcall as (_ & _ & _ & _ & _ & ->).
      apply tryOnce_sleeps in Htry.
      rewrite sleeps_app, Htry, Nat.sub_diag. simpl. auto.
    - intros g w e w1 Htry _ _ _. apply tryOnce_sleeps in Htry.
      rewrite Htry, Nat.sub_diag. simpl. rewrite app_nil_r. auto.
    - intros g w e w1 Htry _ _ _. apply tryOnce_sleeps in Htry.
      rewrite Htry, Nat.sub_diag. simpl. rewrite app_nil_r. auto.
    - intros g w e w1 e' w2 _ _ _ _ Hb Hd.
      destruct (backoff_number (Grit.bump g) w1 _ w2 ms Hd Hnz Hb) as [Habs _].
      discriminate.
    - intros g w e w1 w2 o g' w' Htry _ _ _ Hb IH Hd.
      apply tryOnce_sleeps in Htry.
      destruct (backoff_number (Grit.bump g) w1 _ w2 ms Hd Hnz Hb) as [_ Hs].
      destruct (IH Hd) as [IH1 IH2]. simpl in IH1, IH2. split; [lia|].
      rewrite IH2, Hs, Htry, <- app_assoc. f_equal.
      replace (Grit.retries g' - Grit.retries g)
        with (S (Grit.retries g' - S (Grit.retries g))) by lia.
      reflexivity.
    - intros g w e w1 o g' w' _ _ _ Hdt _ Hd. rewrite Hd in Hdt. simpl in Hdt.
      congruence. }
  destruct (Hgoal Hdg) as [_ Hs]. subst g. simpl in Hs.
  now rewrite Nat.sub_0_r in Hs.
Qed.





(** ** Retry counts that leave no retry *)

(** X13. A retry count that is zero or negative passes validation like any
    other, and the run is a single attempt: the engine's counters stay at
    their initial values, the operation is invoked at most once and nothing
    is waited for. *)
Theorem no_retry_without_budget fn b w g (n : Z) o g' w' :
  GritBuilder.b_retryCount b = Some n → (n <= 0)%Z →
  GritBuilder.build b w = Resolved g →
  Grit.attempt fn g w = Some (o, g', w') →
  g' = g ∧
  sleeps (log w') = sleeps (log w) ∧
  invocations (log w') ≤ invocations (log w) + 1.
Proof.
  intros Hn Hle Hb Hrun.
  pose proof (build_valid b w g Hb) as [Hg _]. subst g.
  set (p := GritBuilder.buildProps b) in *.
  assert (Hex : Grit.exhausted (fresh p) = true).
  { unfold Grit.exhausted. simpl. subst p. simpl. rewrite Hn. apply Z.leb_le. lia. }
  unfold Grit.attempt, Grit.execute, Grit.budget in Hrun.
  replace (retryCount (Grit.props (fresh p))) with (Some n) in Hrun
    by (symmetry; exact Hn).
  cbn [Grit.execute_fuel] in Hrun.
  destruct (Grit.tryOnce fn (fresh p) w) as [[v|e] w1] eqn:Htry.
  - inversion Hrun; subst. split; [reflexivity|].
    split; [exact (tryOnce_sleeps fn _ _ _ _ Htry)|].
    apply tryOnce_log in Htry as (tr & -> & [-> | ->]);
      rewrite invocations_app; unfold invocations; simpl; lia.
  - rewrite Hex in Hrun.
    pose proof (tryOnce_sleeps fn _ _ _ _ Htry) as Hs.
    apply tryOnce_log in Htry as (tr & Hl & Htr).
    destruct (fallback (Grit.props (fresh p))) as [fb|].
    + destruct (Grit.callFallback fb e (fresh p) w1) as [r w2] eqn:Hcall.
      apply callFallback_effects in Hcall as (_ & _ & _ & _ & _ & Hl2).
      inversion Hrun; subst. split; [reflexivity|].
      rewrite Hl2, sleeps_app, Hs, Hl, !invocations_app. simpl.
      rewrite app_nil_r. split; [reflexivity|].
      destruct Htr as [-> | ->]; unfold invocations; simpl; lia.
    + inversion Hrun; subst. split; [reflexivity|]. split; [exact Hs|].
      rewrite Hl, invocations_app.
      destruct Htr as [-> | ->]; unfold invocations; simpl; lia.
Qed.

(** ** Reusing a builder *)

Lemma validate_without_array (p : GritProps State) (h h' : gmap nat (list Q)) :
  (∀ ref, delay p ≠ Some (DelayArray ref)) →
  Grit.validateGritConfig h (fresh p) = Grit.validateGritConfig h' (fresh p).
Proof.
  intros Hd. unfold Grit.validateGritConfig. simpl.
  destruct (delay p) as [[ms|ref|d f|mn mx f]|]; try reflexivity.
  exfalso. exact (Hd ref eq_refl).
Qed.

(** X14. A builder whose delay is not an explicit array can be used again
    after any call: whatever the first call did, the next one constructs an
    engine again, with the counters at their initial values. *)
Theorem builder_reusable_without_array fn b w o w1 :
  (∀ ref, GritBuilder.b_delay b ≠ Some (DelayArray ref)) →
  GritBuilder.attempt fn b w = Some (GritBuilder.Returned o, w1) →
  GritBuilder.build b w1 = Resolved (fresh (GritBuilder.buildProps b)).
Proof.
  intros Hd Hcall. unfold GritBuilder.attempt in Hcall.
  destruct (GritBuilder.build b w) as [g|e] eqn:Hb; [|discriminate].
  unfold GritBuilder.build in *. apply new_fresh in Hb as [_ Hv].
  unfold Grit.new. fold (fresh (GritBuilder.buildProps b)).
  rewrite (validate_without_array (GritBuilder.buildProps b) (heap w1) (heap w) Hd), Hv.
  reflexivity.
Qed.

(** ** A timeout that does not fire *)




(** ** Runs in which every attempt is rejected by the race *)









(** ** Logging *)

Lemma sameButDebug_refl w : sameButDebug w w.
Proof. unfold sameButDebug. auto 10. Qed.

Ltac split_worlds w w2 H :=
  destruct w as [s0 t0 h0 rnd0 dr0 l0], w2 as [s2 t2 h2 rnd2 dr2 l2];
  unfold sameButDebug in H; simpl in H;
  destruct H as (<- & <- & <- & <- & <- & H).

Ltac close_sim H :=
  intros Heq; inversion Heq; subst; eexists; (split; [reflexivity|]);
  unfold sameButDebug; simpl; rewrite ?withoutDebug_app, ?H; simpl;
  rewrite ?app_nil_r; auto 10.

Lemma tryOnce_respects fn g w w2 o w1 :
  sameButDebug w w2 →
  Grit.tryOnce fn g w = (o, w1) →
  ∃ w1', Grit.tryOnce fn g w2 = (o, w1') ∧ sameButDebug w1 w1'.
Proof.
  intros H. split_worlds w w2 H.
  unfold Grit.tryOnce, Grit.withTimeout, Grit.race, Grit.invoke. simpl.
  destruct (fn (Grit.attempts g) s0) as [inv s'].
  repeat match goal with
         | |- context [match ?x with _ => _ end] => destruct x
         end;
    close_sim H.
Qed.

Lemma callFallback_respects (fb : FallbackFunction State) e g w w2 r w1 :
  sameButDebug w w2 →
  Grit.callFallback fb e g w = (r, w1) →
  ∃ w1', Grit.callFallback fb e g w2 = (r, w1') ∧ sameButDebug w1 w1'.
Proof.
  intros H. split_worlds w w2 H.
  unfold Grit.callFallback. simpl.
  destruct (fb e (Grit.attempts g) s0) as [r' s']. close_sim H.
Qed.

Lemma backoff_respects g (enabled : bool) w w2 r w1 :
  sameButDebug w w2 →
  Grit.backoff g w = (r, w1) →
  ∃ w1', Grit.backoff (withProps (setLogging enabled (Grit.props g)) g) w2 = (r, w1') ∧
         sameButDebug w1 w1'.
Proof.
  intros H. split_worlds w w2 H.
  unfold Grit.backoff, Grit.currentDelay, draw, readArray. simpl.
  destruct (delay (Grit.props g)) as [[ms|ref|d f|mn mx f]|]; simpl;
    [ | destruct (h0 !! ref) as [[|x rest]|]; simpl | | | ];
    repeat match goal with
           | |- context [if ?x then _ else _] => destruct x
           end;
    close_sim H.
Qed.

Lemma execute_respects fn (enabled : bool) (fuel : nat) : ∀ g w w2 o g' w',
  sameButDebug w w2 →
  Grit.execute_fuel fuel fn g w = Some (o, g', w') →
  ∃ w2',
    Grit.execute_fuel fuel fn (withProps (setLogging enabled (Grit.props g)) g) w2
      = Some (o, withProps (setLogging enabled (Grit.props g')) g', w2') ∧
    sameButDebug w' w2'.
Proof.
  induction fuel as [|fuel IH]; intros g w w2 o g' w' Hsim Hrun; [discriminate|].
  cbn [Grit.execute_fuel] in *.
  set (gl := withProps (setLogging enabled (Grit.props g)) g).
  change (Grit.tryOnce fn gl w2) with (Grit.tryOnce fn g w2).
  destruct (Grit.tryOnce fn g w) as [[v|e] w1] eqn:Htry;
    destruct (tryOnce_respects fn g w w2 _ _ Hsim Htry) as (w1' & -> & Hsim1).
  { inversion Hrun; subst. eauto. }
  change (Grit.exhausted gl) with (Grit.exhausted g).
  destruct (Grit.exhausted g).
  { change (fallback (Grit.props gl)) with (fallback (Grit.props g)).
    destruct (fallback (Grit.props g)) as [fb|].
    - change (Grit.callFallback fb e gl w1') with (Grit.callFallback fb e g w1').
      destruct (Grit.callFallback fb e g w1) as [r w3] eqn:Hcall.
      destruct (callFallback_respects fb e g w1 w1' _ _ Hsim1 Hcall) as (w3' & -> & Hsim3).
      inversion Hrun; subst. eauto.
    - inversion Hrun; subst. eauto. }
  change (Grit.filteredOut gl e) with (Grit.filteredOut g e).
  destruct (Grit.filteredOut g e).
  { inversion Hrun; subst. eauto. }
  change (delay (Grit.props (Grit.bump gl))) with (delay (Grit.props (Grit.bump g))).
  change (Grit.bump gl)
    with (withProps (setLogging enabled (Grit.props (Grit.bump g))) (Grit.bump g)).
  destruct (delayTruthy (delay (Grit.props (Grit.bump g)))).
  - destruct (Grit.backoff (Grit.bump g) w1) as [[[]|e'] w3] eqn:Hb;
      destruct (backoff_respects (Grit.bump g) enabled w1 w1' _ _ Hsim1 Hb)
        as (w3' & -> & Hsim3).
    + exact (IH _ _ _ _ _ _ Hsim3 Hrun).
    + inversion Hrun; subst. eauto.
  - exact (IH _ _ _ _ _ _ Hsim1 Hrun).
Qed.

(** X18. The [logging] flag has no effect on a call but the diagnostic
    lines: with the flag set either way, [attempt] ends with the same
    outcome (or throws the same configuration error) and leaves worlds that
    agree on everything except the [console.debug] lines of the log. *)
Theorem logging_changes_only_the_log fn b (enabled : bool) w r w' :
  GritBuilder.attempt fn b w = Some (r, w') →
  ∃ w'',
    GritBuilder.attempt fn (GritBuilder.withLogging enabled b) w = Some (r, w'') ∧
    sameButDebug w' w''.
Proof.
  unfold GritBuilder.attempt, GritBuilder.build, Grit.new.
  change (Grit.validateGritConfig (heap w)
            {| Grit.props := GritBuilder.buildProps (GritBuilder.withLogging enabled b);
               Grit.attempts := 1; Grit.retries := 0 |})
    with (Grit.validateGritConfig (heap w) (fresh (GritBuilder.buildProps b))).
  fold (fresh (GritBuilder.buildProps b)).
  destruct (Grit.validateGritConfig (heap w) (fresh (GritBuilder.buildProps b))).
  - unfold Grit.attempt, Grit.execute.
    destruct (Grit.execute_fuel _ fn (fresh (GritBuilder.buildProps b)) w)
      as [[[o g'] w1]|] eqn:Hrun; [|discriminate].
    intros H. inversion H; subst.
    destruct (execute_respects fn enabled _ _ w w _ _ _ (sameButDebug_refl w) Hrun)
      as (w2' & Hrun2 & Hsim).
    exists w2'. split; [|exact Hsim].
    change {| Grit.props := GritBuilder.buildProps (GritBuilder.withLogging enabled b);
              Grit.attempts := 1; Grit.retries := 0 |}
      with (withProps (setLogging enabled (Grit.props (fresh (GritBuilder.buildProps b))))
              (fresh (GritBuilder.buildProps b))).
    change (Grit.budget
              (withProps (setLogging enabled (Grit.props (fresh (GritBuilder.buildProps b))))
                 (fresh (GritBuilder.buildProps b))))
      with (Grit.budget (fresh (GritBuilder.buildProps b))).
    now rewrite Hrun2.
  - intros H. inversion H; subst. exists w'. split; [reflexivity|apply sameButDebug_refl].
Qed.

(** ** Configuration errors *)

Lemma validateTimeout_GritError (t : TimeoutConfig) e :
  Grit.validateTimeout t = Throws e → constructorOf e = Some GritError.
Proof.
  unfold Grit.validateTimeout.
  destruct t as [ms|ob]; destruct (Qleb _ 0); intros H; inversion H; reflexivity.
Qed.

Lemma validateDelay_GritError (h : gmap nat (list Q)) (rc : Z) (d : DelayConfig) e :
  Grit.validateDelay h rc d = Some (Throws e) → constructorOf e = Some GritError.
Proof.
  unfold Grit.validateDelay.
  destruct d as [ms|ref|dl f|mn mx f];
    repeat match goal with
           | |- context [if ?x then _ else _] => destruct x
           end;
    intros H; inversion H; reflexivity.
Qed.

Lemma validation_throws_GritError (h : gmap nat (list Q)) g e :
  Grit.validateGritConfig h g = Throws e → constructorOf e = Some GritError.
Proof.
  unfold Grit.validateGritConfig.
  destruct (retryCount (Grit.props g)) as [rc|];
    [|intros H; inversion H; reflexivity].
  assert (Ht : (if timeoutTruthy (timeout (Grit.props g))
                then match timeout (Grit.props g) with
                     | Some t => Grit.validateTimeout t
                     | None => Valid
                     end
                else Valid) = Throws e → constructorOf e = Some GritError).
  { destruct (timeoutTruthy _); [|discriminate].
    destruct (timeout (Grit.props g)) as [t|]; [|discriminate].
    apply validateTimeout_GritError. }
  destruct (delayTruthy _); [|exact Ht].
  destruct (delay (Grit.props g)) as [d|]; [|exact Ht].
  destruct (Grit.validateDelay h rc d) as [c|] eqn:Hd; [|exact Ht].
  intros ->. exact (validateDelay_GritError h rc d e Hd).
Qed.

(** X19. A configuration that [validateGritConfig] refuses makes both
    [attempt] and [safeAttempt] of the builder throw, instead of returning a
    promise: the error is a [GritError], the operation is not invoked and
    the world is left as it was.  [safeAttempt] does not capture it. *)
Theorem configuration_errors_are_thrown fn b w e :
  GritBuilder.build b w = Rejected e →
  constructorOf e = Some GritError ∧
  GritBuilder.attempt fn b w = Some (GritBuilder.Threw e, w) ∧
  GritBuilder.safeAttempt fn b w = Some (GritBuilder.Threw e, w).
Proof.
  intros Hb. unfold GritBuilder.attempt, GritBuilder.safeAttempt. rewrite Hb.
  split; [|auto].
  unfold GritBuilder.build, Grit.new in Hb.
  destruct (Grit.validateGritConfig _ _) as [|e'] eqn:Hv; [discriminate|].
  inversion Hb; subst. exact (validation_throws_GritError _ _ _ Hv).
Qed.

(** ** The heap *)

Lemma backoff_heap g w r w2 (l : nat) :
  delay (Grit.props g) ≠ Some (DelayArray l) →
  Grit.backoff g w = (r, w2) → heap w2 !! l = heap w !! l.
Proof.
  unfold Grit.backoff, Grit.currentDelay, draw. intros Hd.
  destruct (delay (Grit.props g)) as [[ms|ref|d f|mn mx f]|];
    [ | destruct (readArray (heap w) ref) as [|x rest] | | | ];
    repeat match goal with
           | |- context [if ?x then _ else _] => destruct x
           end;
    intros H; inversion H; subst; simpl; try reflexivity.
  all: apply lookup_insert_ne; intros ->; now apply Hd.
Qed.

(** X20. A run writes to the heap only at the delay array of its
    configuration: every other address, and every address when the delay is
    not an array, holds after the run what it held before. *)
Theorem heap_changes_only_at_the_delay_array fn (fuel : nat) g w o g' w' (l : nat) :
  delay (Grit.props g) ≠ Some (DelayArray l) →
  Grit.execute_fuel fuel fn g w = Some (o, g', w') →
  heap w' !! l = heap w !! l.
Proof.
  intros Hd Hrun. revert Hd. pattern g, w, o, g', w'.
  eapply (execute_cases fn); [| | | | | | |exact Hrun]; clear.
  - intros g w v w1 Htry _.
    apply tryOnce_effects in Htry as (-> & _). reflexivity.
  - intros g w e w1 fb r w2 Htry _ _ Hcall _.
    apply callFallback_effects in Hcall as (_ & _ & -> & _).
    apply tryOnce_effects in Htry as (-> & _). reflexivity.
  - intros g w e w1 Htry _ _ _.
    apply tryOnce_effects in Htry as (-> & _). reflexivity.
  - intros g w e w1 Htry _ _ _.
    apply tryOnce_effects in Htry as (-> & _). reflexivity.
  - intros g w e w1 e' w2 Htry _ _ _ Hb Hd.
    rewrite (backoff_heap (Grit.bump g) w1 _ w2 l Hd Hb).
    apply tryOnce_effects in Htry as (-> & _). reflexivity.
  - intros g w e w1 w2 o g' w' Htry _ _ _ Hb IH Hd.
    rewrite (IH Hd), (backoff_heap (Grit.bump g) w1 _ w2 l Hd Hb).
    apply tryOnce_effects in Htry as (-> & _). reflexivity.
  - intros g w e w1 o g' w' Htry _ _ _ IH Hd.
    rewrite (IH Hd).
    apply tryOnce_effects in Htry as (-> & _). reflexivity.
Qed.

End Further.

(** * The properties at the sample inputs *)



Lemma safeAttempt_never_rejects_witness :
  ∃ o w',
    GritBuilder.attempt Sample.alwaysFails Sample.doubling Sample.w0
      = Some (GritBuilder.Returned o, w') ∧
    GritBuilder.safeAttempt Sample.alwaysFails Sample.doubling Sample.w0
      = Some (GritBuilder.Returned
                (Resolved match o with
                          | Resolved v => {| Grit.result := v; Grit.error := VNull |}
                          | Rejected e => {| Grit.result := VNull; Grit.error := e |}
                          end), w').
Proof.
  exact (safeAttempt_never_rejects Sample.alwaysFails Sample.doubling Sample.w0
           (fresh (GritBuilder.buildProps Sample.doubling)) eq_refl).
Defined.




Lemma skipErrors_checked_first_witness :
  ∃ w1,
    Grit.tryOnce Sample.alwaysFails
      (fresh (GritBuilder.buildProps Sample.skipAndOnly)) Sample.w0
      = (Rejected Sample.failed, w1) ∧
    Grit.execute_fuel 4 Sample.alwaysFails
      (fresh (GritBuilder.buildProps Sample.skipAndOnly)) Sample.w0
      = Some (Rejected Sample.failed,
              fresh (GritBuilder.buildProps Sample.skipAndOnly), w1).
Proof.
  eexists. split; [reflexivity|].
  apply (skipErrors_checked_first 3 Sample.alwaysFails
           (fresh (GritBuilder.buildProps Sample.skipAndOnly)) Sample.w0
           Sample.failed Sample.NetworkError);
    [reflexivity | reflexivity | reflexivity | left; reflexivity].
Defined.

Lemma onlyErrors_miss_propagates_witness :
  ∃ w1,
    GritBuilder.attempt Sample.alwaysFails Sample.onlyValidation Sample.w0
      = Some (GritBuilder.Returned (Rejected Sample.failed), w1) ∧
    (log w1 = log Sample.w0 ∨ log w1 = log Sample.w0 ++ [EvInvoke 1]) ∧
    sleeps (log w1) = sleeps (log Sample.w0) ∧
    fallbackCalls (log w1) = fallbackCalls (log Sample.w0).
Proof.
  eexists.
  apply (onlyErrors_miss_propagates Sample.alwaysFails Sample.onlyValidation Sample.w0
           (fresh (GritBuilder.buildProps Sample.onlyValidation)) 3
           Sample.failed Sample.NetworkError);
    [reflexivity | lia | reflexivity | discriminate | reflexivity | reflexivity |].
  intros [H | []]. discriminate H.
Defined.


Lemma pre_aborted_signal_witness :
  Grit.tryOnce Sample.flaky (fresh (GritBuilder.buildProps Sample.withSignal)) Sample.w0
    = (Rejected (new_DOMException "This operation was aborted."), Sample.w0).
Proof.
  destruct (pre_aborted_signal Sample.flaky
              (fresh (GritBuilder.buildProps Sample.withSignal)) Sample.w0
              Sample.signalled Sample.abortedSignal 0%Q
              eq_refl eq_refl eq_refl (Qle_refl 0)) as (_ & Htry & _ & Hgeneric).
  rewrite Htry, Hgeneric; [reflexivity | left; reflexivity].
Defined.

Lemma delay_array_shared_between_calls_witness :
  ∃ w1,
    GritBuilder.attempt Sample.flaky Sample.fromArray Sample.w0
      = Some (GritBuilder.Returned (Resolved Sample.success), w1) ∧
    readArray (heap w1) 7 = [2000%Q] ∧
    GritBuilder.attempt Sample.alwaysFails Sample.fromArray w1
      = Some (GritBuilder.Threw
                (new_GritError "Delay array length must be equal to retry count"), w1) ∧
    GritBuilder.safeAttempt Sample.alwaysFails Sample.fromArray w1
      = Some (GritBuilder.Threw
                (new_GritError "Delay array length must be equal to retry count"), w1).
Proof.
  destruct (delay_array_shared_between_calls Sample.flaky Sample.alwaysFails
              Sample.fromArray Sample.w0
              (fresh (GritBuilder.buildProps Sample.fromArray)) 7 eq_refl eq_refl)
    as (o & g' & w1 & _ & Hcall & _ & Hnext).
  assert (Hrun : GritBuilder.attempt Sample.flaky Sample.fromArray Sample.w0
                 = Some (GritBuilder.Returned (Resolved Sample.success),
                         {| opState := 3; now := 1515%Q;
                            heap := <[7 := [2000%Q]]> (<[7 := [1000%Q; 2000%Q]]> (heap Sample.w0));
                            random := random Sample.w0; draws := 0;
                            log := [EvInvoke 1; EvSleep 500; EvInvoke 2;
                                    EvSleep 1000; EvInvoke 3] |}))
    by (vm_compute; reflexivity).
  rewrite Hrun in Hcall. injection Hcall as Ho Hw. subst w1.
  eexists. split; [exact Hrun|]. split; [reflexivity|].
  apply Hnext. vm_compute. lia.
Defined.

(** * The further properties at the sample inputs *)

Lemma counters_move_together_witness :
  match Grit.execute_fuel 4 Sample.flaky
          (fresh (GritBuilder.buildProps Sample.doubling)) Sample.w0 with
  | Some (o, g', w') =>
      Grit.props g' = GritBuilder.buildProps Sample.doubling ∧
      0 ≤ Grit.retries g' ∧
      Grit.attempts g' + 0 = 1 + Grit.retries g' ∧
      (Z.of_nat (Grit.retries g') <= Z.max 3 (Z.of_nat 0))%Z
  | None => False
  end.
Proof.
  destruct (Grit.execute_fuel 4 Sample.flaky
              (fresh (GritBuilder.buildProps Sample.doubling)) Sample.w0)
    as [[[o g'] w']|] eqn:Hrun; [|vm_compute in Hrun; discriminate].
  exact (counters_move_together Sample.flaky 4 _ Sample.w0 o g' w' 3 Hrun eq_refl).
Defined.

Lemma never_more_than_budget_witness :
  match GritBuilder.attempt Sample.alwaysFails Sample.doubling Sample.w0 with
  | Some (r, w') => invocations (log w') ≤ invocations (log Sample.w0) + Z.to_nat 3 + 1
  | None => False
  end.
Proof.
  destruct (GritBuilder.attempt Sample.alwaysFails Sample.doubling Sample.w0)
    as [[r w']|] eqn:Hrun; [|vm_compute in Hrun; discriminate].
  exact (never_more_than_budget Sample.alwaysFails Sample.doubling Sample.w0 r w' 3
           eq_refl Hrun).
Defined.

Lemma fallback_only_at_the_end_witness :
  match Grit.execute_fuel 3 Sample.alwaysFails
          (fresh (GritBuilder.buildProps Sample.withCache)) Sample.w0 with
  | Some (o, g', w') =>
      fallbackCalls (log w') = fallbackCalls (log Sample.w0) ∨
      (Grit.exhausted g' = true ∧
       ∃ l e fb s,
         fallback (Grit.props g') = Some fb ∧
         log w' = l ++ [EvFallback e (Grit.attempts g')] ∧
         fallbackCalls l = fallbackCalls (log Sample.w0) ∧
         o = fst (fb e (Grit.attempts g') s) ∧ opState w' = snd (fb e (Grit.attempts g') s))
  | None => False
  end.
Proof.
  destruct (Grit.execute_fuel 3 Sample.alwaysFails
              (fresh (GritBuilder.buildProps Sample.withCache)) Sample.w0)
    as [[[o g'] w']|] eqn:Hrun; [|vm_compute in Hrun; discriminate].
  exact (fallback_only_at_the_end Sample.alwaysFails 3 _ Sample.w0 o g' w' Hrun).
Defined.

Lemma delay_array_accepted_iff_witness :
  (∃ g, GritBuilder.build Sample.fromArray Sample.w0 = Resolved g) ↔
  (Z.of_nat (length (readArray (heap Sample.w0) 7)) = 3%Z ∧
   Forall (λ x, (0 < x)%Q) (readArray (heap Sample.w0) 7)).
Proof.
  exact (delay_array_accepted_iff Sample.fromArray Sample.w0 3 7 eq_refl eq_refl).
Defined.

Lemma random_delay_accepted_iff_witness :
  (∃ g, GritBuilder.build Sample.jittered Sample.w0 = Resolved g) ↔
  ((0 < 100)%Q ∧ (100 < 200)%Q).
Proof.
  exact (random_delay_accepted_iff Sample.jittered Sample.w0 2 100%Q 200%Q None
           eq_refl eq_refl eq_refl).
Defined.

Lemma timeout_unchecked_behind_delay_witness :
  GritBuilder.build (GritBuilder.withTimeout (TimeoutNumber (-5)%Q) Sample.doubling)
    Sample.w0 =
  match GritBuilder.build Sample.doubling Sample.w0 with
  | Resolved g =>
      Resolved (withProps (GritBuilder.buildProps
                             (GritBuilder.withTimeout (TimeoutNumber (-5)%Q) Sample.doubling)) g)
  | Rejected e => Rejected e
  end.
Proof.
  apply (timeout_unchecked_behind_delay Sample.doubling Sample.w0
           (DelayFactor 100%Q (Some 2%Q)) (TimeoutNumber (-5)%Q));
    [reflexivity | reflexivity | discriminate].
Defined.




Lemma array_waits_in_order_witness :
  match Grit.attempt Sample.flaky
          (fresh (GritBuilder.buildProps Sample.fromArray)) Sample.w0 with
  | Some (o, g', w') =>
      sleeps (log w') =
        sleeps (log Sample.w0) ++ take (Grit.retries g') (readArray (heap Sample.w0) 7)
  | None => False
  end.
Proof.
  destruct (Grit.attempt Sample.flaky
              (fresh (GritBuilder.buildProps Sample.fromArray)) Sample.w0)
    as [[[o g'] w']|] eqn:Hrun; [|vm_compute in Hrun; discriminate].
  exact (array_waits_in_order Sample.flaky Sample.fromArray Sample.w0 _ 7 o g' w'
           eq_refl eq_refl Hrun).
Defined.

Lemma scalar_waits_are_constant_witness :
  match Grit.attempt Sample.alwaysFails
          (fresh (GritBuilder.buildProps Sample.withCache)) Sample.w0 with
  | Some (o, g', w') =>
      sleeps (log w') = sleeps (log Sample.w0) ++ replicate (Grit.retries g') 50%Q
  | None => False
  end.
Proof.
  destruct (Grit.attempt Sample.alwaysFails
              (fresh (GritBuilder.buildProps Sample.withCache)) Sample.w0)
    as [[[o g'] w']|] eqn:Hrun; [|vm_compute in Hrun; discriminate].
  apply (scalar_waits_are_constant Sample.alwaysFails Sample.withCache Sample.w0
           (fresh (GritBuilder.buildProps Sample.withCache)) 50%Q o g' w'); [reflexivity | | reflexivity | exact Hrun].
  unfold Qeq. simpl. lia.
Defined.


Lemma no_retry_without_budget_witness :
  match Grit.attempt Sample.alwaysFails
          (fresh (GritBuilder.buildProps Sample.negative)) Sample.w0 with
  | Some (o, g', w') =>
      g' = fresh (GritBuilder.buildProps Sample.negative) ∧
      sleeps (log w') = sleeps (log Sample.w0) ∧
      invocations (log w') ≤ invocations (log Sample.w0) + 1
  | None => False
  end.
Proof.
  destruct (Grit.attempt Sample.alwaysFails
              (fresh (GritBuilder.buildProps Sample.negative)) Sample.w0)
    as [[[o g'] w']|] eqn:Hrun; [|vm_compute in Hrun; discriminate].
  apply (no_retry_without_budget Sample.alwaysFails Sample.negative Sample.w0
           (fresh (GritBuilder.buildProps Sample.negative)) (-2) o g' w'); [reflexivity | lia | reflexivity | exact Hrun].
Defined.

Lemma builder_reusable_without_array_witness :
  match GritBuilder.attempt Sample.flaky Sample.doubling Sample.w0 with
  | Some (GritBuilder.Returned o, w1) =>
      GritBuilder.build Sample.doubling w1 =
      Resolved (fresh (GritBuilder.buildProps Sample.doubling))
  | _ => False
  end.
Proof.
  destruct (GritBuilder.attempt Sample.flaky Sample.doubling Sample.w0)
    as [[[e|o] w1]|] eqn:Hrun;
    [vm_compute in Hrun; discriminate | | vm_compute in Hrun; discriminate].
  apply (builder_reusable_without_array Sample.flaky Sample.doubling Sample.w0 o w1);
    [discriminate | exact Hrun].
Defined.




Lemma logging_changes_only_the_log_witness :
  match GritBuilder.attempt Sample.flaky Sample.doubling Sample.w0 with
  | Some (r, w') =>
      ∃ w'',
        GritBuilder.attempt Sample.flaky
          (GritBuilder.withLogging true Sample.doubling) Sample.w0 = Some (r, w'') ∧
        sameButDebug w' w''
  | None => False
  end.
Proof.
  destruct (GritBuilder.attempt Sample.flaky Sample.doubling Sample.w0)
    as [[r w']|] eqn:Hrun; [|vm_compute in Hrun; discriminate].
  exact (logging_changes_only_the_log Sample.flaky Sample.doubling true Sample.w0 r w'
           Hrun).
Defined.

Lemma configuration_errors_are_thrown_witness :
  constructorOf (new_GritError "Delay array length must be equal to retry count")
    = Some GritError ∧
  GritBuilder.attempt Sample.flaky Sample.shortArray Sample.w0 =
    Some (GritBuilder.Threw
            (new_GritError "Delay array length must be equal to retry count"),
          Sample.w0) ∧
  GritBuilder.safeAttempt Sample.flaky Sample.shortArray Sample.w0 =
    Some (GritBuilder.Threw
            (new_GritError "Delay array length must be equal to retry count"),
          Sample.w0).
Proof.
  exact (configuration_errors_are_thrown Sample.flaky Sample.shortArray Sample.w0 _
           eq_refl).
Defined.

Lemma heap_changes_only_at_the_delay_array_witness :
  match Grit.execute_fuel 4 Sample.flaky
          (fresh (GritBuilder.buildProps Sample.fromArray)) Sample.w0 with
  | Some (o, g', w') => heap w' !! 8 = heap Sample.w0 !! 8
  | None => False
  end.
Proof.
  destruct (Grit.execute_fuel 4 Sample.flaky
              (fresh (GritBuilder.buildProps Sample.fromArray)) Sample.w0)
    as [[[o g'] w']|] eqn:Hrun; [|vm_compute in Hrun; discriminate].
  apply (heap_changes_only_at_the_delay_array Sample.flaky 4
           (fresh (GritBuilder.buildProps Sample.fromArray)) Sample.w0 o g' w' 8);
    [discriminate | exact Hrun].
Defined.
